(** * RFV segmentation (tarefa_mod31.py): a shallow embedding and its properties

    The program reads a purchase log, aggregates it per customer into
    Recencia / Frequencia / Valor, cuts each metric at its quartiles, labels
    every customer with three letters and looks the three-letter code up in a
    fixed dictionary of marketing actions.

    Conventions of the embedding:
    - a float64 cell is a [number]: a rational or NaN.  Comparisons follow
      Python: any comparison with NaN is false.  Rounding of float64
      arithmetic is not modelled, sums and quantiles are exact, and the
      infinities are left out;
    - a timestamp is an integer count of nanoseconds since the epoch, as in a
      datetime64[ns] column; NaT is [None];
    - identifiers (customer, purchase order) are strings; a missing cell is
      [None];
    - the Streamlit calls are recorded as a list of events in the order the
      script emits them; an exception is a value of [exn] carried by
      [result]. *)

From Stdlib Require Import ZArith QArith Qround Lia Lqa List Ascii String.
From stdpp Require Import base option list sorting strings gmap.

Local Open Scope string_scope.
Local Open Scope list_scope.
Local Open Scope Z_scope.

(** ** Numbers *)

(** A float64 cell. *)
Inductive number : Type :=
  | NaN : number
  | Num : Q -> number.

(** Python's [x <= y] on floats. *)
Definition num_le (x y : number) : bool :=
  match x, y with
  | Num a, Num b => Qle_bool a b
  | _, _ => false
  end.

(** Python's [x < y] on floats. *)
Definition num_lt (x y : number) : bool :=
  match x, y with
  | Num a, Num b => negb (Qle_bool b a)
  | _, _ => false
  end.

(** ** Quartile dictionary and class labels *)

(** The three columns that [quantile] is taken over; they are the keys of
    [q_dict]. *)
Inductive metric : Type := Recencia | Frequencia | Valor.

(** [q_dict[col]]: the inner dictionary with keys 0.25, 0.5 and 0.75. *)
Record quartiles : Type := Quartiles {
  q25 : number;
  q50 : number;
  q75 : number
}.

(** [q_dict = df_rfv[[...]].quantile([0.25, 0.5, 0.75]).to_dict()]: one
    inner dictionary per column. *)
Definition qdict : Type := metric -> quartiles.

(** The one-letter strings the two classifiers return. *)
Inductive label : Type := A | B | C | D.

Definition label_str (l : label) : string :=
  match l with A => "A" | B => "B" | C => "C" | D => "D" end.

(** [recencia_class(x, q_dict)], lines 30-38. *)
Definition recencia_class (x : number) (q_dict : qdict) : label :=
  if num_le x (q25 (q_dict Recencia)) then A
  else if num_le x (q50 (q_dict Recencia)) then B
  else if num_le x (q75 (q_dict Recencia)) then C
  else D.

(** [freq_val_class(x, fv, q_dict)], lines 41-49. *)
Definition freq_val_class (x : number) (fv : metric) (q_dict : qdict) : label :=
  if num_le x (q25 (q_dict fv)) then D
  else if num_le x (q50 (q_dict fv)) then C
  else if num_le x (q75 (q_dict fv)) then B
  else A.

(** [df_rfv['R'] + df_rfv['F'] + df_rfv['V']], line 110, for one row. *)
Definition rfv_code (r f v : label) : string :=
  label_str r +:+ label_str f +:+ label_str v.

(** ** The uploaded table *)

(** One line of [df_compras] once line 76 has run.  [DiaCompra] holds what
    [pd.to_datetime(..., errors='coerce')] gives for the cell: a timestamp,
    or [None] (NaT) when the cell is empty or does not parse. *)
Record Compra : Type := {
  ID_cliente : option string;
  DiaCompra : option Z;
  CodigoCompra : option string;
  ValorTotal : number
}.

(** A data frame: the names of the columns the file has, and its lines.  A
    field of a line whose column is absent is never read: the access to the
    column raises first. *)
Record DataFrame : Type := {
  columns : list string;
  rows : list Compra
}.

(** ** Exceptions *)

Inductive exn : Type :=
  | KeyError (key : string)
  | AttributeError (obj attr : string)
  | ExternalError (msg : string).

(** [str(e)], as the f-string of line 182 formats it. *)
Definition exn_str (e : exn) : string :=
  match e with
  | KeyError k => "'" +:+ k +:+ "'"
  | AttributeError o a => "'" +:+ o +:+ "' object has no attribute '" +:+ a +:+ "'"
  | ExternalError m => m
  end.

Inductive result (T : Type) : Type :=
  | Ok (v : T)
  | Raise (e : exn).
Arguments Ok {T} v.
Arguments Raise {T} e.

#[global] Instance result_ret : MRet result := fun _ v => Ok v.
#[global] Instance result_bind : MBind result := fun _ _ k c =>
  match c with
  | Ok v => k v
  | Raise e => Raise e
  end.

Definition has_column (df : DataFrame) (c : string) : bool :=
  bool_decide (c ∈ columns df).

(** [df[c]]: KeyError when the frame has no such column. *)
Definition getitem (df : DataFrame) (c : string) : result unit :=
  if has_column df c then Ok tt else Raise (KeyError c).

(** [df.groupby(by)]: KeyError when the grouping column is absent. *)
Definition groupby (df : DataFrame) (by_ : string) : result unit :=
  if has_column df by_ then Ok tt else Raise (KeyError by_).

(** [grouped.attr]: attribute access on the group-by object selects the
    column of that name, and raises AttributeError when there is none. *)
Definition getattr (df : DataFrame) (attr : string) : result unit :=
  if has_column df attr then Ok tt
  else Raise (AttributeError "DataFrameGroupBy" attr).

(** ** Sorting *)

Section Sort.
Context {T : Type} (leb : T -> T -> bool).

Fixpoint insert_sorted (x : T) (l : list T) : list T :=
  match l with
  | [] => [x]
  | y :: l' => if leb x y then x :: y :: l' else y :: insert_sorted x l'
  end.

Definition isort (l : list T) : list T := foldr insert_sorted [] l.
End Sort.

(** ** Group-by and the three aggregates *)

(** The group keys of [groupby('ID_cliente')]: the distinct non-null
    customer identifiers, in sorted order (lines with a null key belong to
    no group). *)
Definition group_keys (l : list Compra) : list string :=
  isort String.leb (remove_dups (omap ID_cliente l)).

(** The lines of one group. *)
Definition group_rows (k : string) (l : list Compra) : list Compra :=
  filter (fun r => ID_cliente r = Some k) l.

(** [max] of a datetime column: NaT entries are skipped, and a column with
    no valid entry gives NaT. *)
Definition max_date (l : list (option Z)) : option Z :=
  foldr (fun d acc =>
           match d, acc with
           | Some t, Some m => Some (Z.max t m)
           | Some t, None => Some t
           | None, _ => acc
           end) None l.

(** Nanoseconds in a day. *)
Definition ns_per_day : Z := 86400 * 1000000000.

(** [(dia_atual - ultima).days]: the whole days of the difference, rounded
    towards minus infinity; NaN for NaT. *)
Definition days_since (dia_atual : Z) (ultima : option Z) : number :=
  match ultima with
  | Some t => Num (inject_Z ((dia_atual - t) / ns_per_day))
  | None => NaN
  end.

(** [nunique] of a column: the number of distinct non-null entries. *)
Definition nunique (l : list (option string)) : nat :=
  length (remove_dups (omap id l)).

(** [sum] of a float column: NaN entries are skipped, the empty sum is 0. *)
Definition sum_skipna (l : list number) : Q :=
  foldr (fun x acc => match x with Num q => Qred (q + acc) | NaN => acc end) 0%Q l.

(** Lines 81-85: [df_recencia], one line per group with the columns
    DiaUltimaCompra and Recencia. *)
Definition df_recencia (dia_atual : Z) (l : list Compra)
  : list (string * (option Z * number)) :=
  (fun k =>
     let ultima := max_date (DiaCompra <$> group_rows k l) in
     (k, (ultima, days_since dia_atual ultima)))
  <$> group_keys l.

(** Lines 88-89: [df_frequencia]. *)
Definition df_frequencia (l : list Compra) : list (string * nat) :=
  (fun k => (k, nunique (CodigoCompra <$> group_rows k l))) <$> group_keys l.

(** Lines 92-93: [df_valor]. *)
Definition df_valor (l : list Compra) : list (string * number) :=
  (fun k => (k, Num (sum_skipna (ValorTotal <$> group_rows k l)))) <$> group_keys l.

(** [left.merge(right, on='ID_cliente')]: the inner join, in the order of
    the left keys. *)
Definition merge {X Y : Type} (lhs : list (string * X)) (rhs : list (string * Y))
  : list (string * (X * Y)) :=
  kx ← lhs;
  (fun ky => (kx.1, (kx.2, ky.2))) <$> filter (fun ky => ky.1 = kx.1) rhs.

(** One line of the aggregate table of lines 96-97. *)
Record Agregado : Type := {
  ag_ID_cliente : string;
  ag_DiaUltimaCompra : option Z;
  ag_Recencia : number;
  ag_Frequencia : nat;
  ag_Valor : number
}.

(** Lines 80-97: the three aggregates and their join. *)
Definition compute_aggregates (dia_atual : Z) (l : list Compra) : list Agregado :=
  (fun '(k, ((ultima, rec, freq), val)) =>
     {| ag_ID_cliente := k; ag_DiaUltimaCompra := ultima;
        ag_Recencia := rec; ag_Frequencia := freq; ag_Valor := val |})
  <$> merge (merge (df_recencia dia_atual l) (df_frequencia l)) (df_valor l).

(** ** Calendar dates, to write timestamps down *)

(** Days from 1970-01-01 to the civil date y-m-d (proleptic Gregorian). *)
Definition days_from_civil (y m d : Z) : Z :=
  let y' := if (m <=? 2)%Z then y - 1 else y in
  let era := y' / 400 in
  let yoe := y' - era * 400 in
  let mp := (m + 9) mod 12 in
  let doy := (153 * mp + 2) / 5 + d - 1 in
  let doe := yoe * 365 + yoe / 4 - yoe / 100 + doy in
  era * 146097 + doe - 719468.

(** The timestamp of midnight at the start of y-m-d. *)
Definition midnight (y m d : Z) : Z := days_from_civil y m d * ns_per_day.

(** A line with every cell present. *)
Definition compra (c : string) (dia : option Z) (o : string) (v : Z) : Compra :=
  {| ID_cliente := Some c; DiaCompra := dia; CodigoCompra := Some o;
     ValorTotal := Num (inject_Z v) |}.

(** The reference scenario: three purchases of two customers. *)
Definition scenario : list Compra :=
  [ compra "C1" (Some (midnight 2024 1 1)) "O1" 100;
    compra "C1" (Some (midnight 2024 1 10)) "O2" 50;
    compra "C2" (Some (midnight 2024 1 5)) "O3" 200 ].

(** One customer with a dated purchase, one whose only date does not
    parse. *)
Definition one_undated : list Compra :=
  [ compra "C1" (Some (midnight 2024 1 1)) "O1" 100;
    compra "C2" None "O2" 50 ].

(** Three lines of one customer, two of them of the same purchase order. *)
Definition repeated_order : list Compra :=
  [ compra "C1" (Some (midnight 2024 1 1)) "O1" 100;
    compra "C1" (Some (midnight 2024 1 1)) "O1" 50;
    compra "C1" (Some (midnight 2024 1 10)) "O2" 10 ].

(** A purchase dated one month after the computation instant. *)
Definition future_purchase : list Compra :=
  [ compra "C1" (Some (midnight 2024 3 1)) "O1" 100 ].

(** ** Quartiles *)

Definition finite (x : number) : option Q :=
  match x with Num q => Some q | NaN => None end.

(** [Series.quantile(p)] with the default linear interpolation: NaN entries
    are skipped; over the sorted values v_0 .. v_(n-1) the result sits at
    position (n-1)*p, between the two nearest ranks; NaN when no value is
    left. *)
Definition quantile (col : list number) (p : Q) : number :=
  let vs := isort Qle_bool (omap finite col) in
  match vs with
  | [] => NaN
  | v0 :: _ =>
      let pos := (inject_Z (Z.of_nat (length vs) - 1) * p)%Q in
      let lo := Qfloor pos in
      let frac := (pos - inject_Z lo)%Q in
      let a := nth (Z.to_nat lo) vs v0 in
      let b := nth (Z.to_nat (lo + 1)) vs a in
      Num (Qred (a + (b - a) * frac))
  end.

Definition quartiles_of (col : list number) : quartiles :=
  {| q25 := quantile col (1 # 4);
     q50 := quantile col (1 # 2);
     q75 := quantile col (3 # 4) |}.

(** A count, as the number [apply] hands to the classifier. *)
Definition of_nat (n : nat) : number := Num (inject_Z (Z.of_nat n)).

(** Lines 100-101. *)
Definition make_q_dict (t : list Agregado) : qdict :=
  fun col =>
    match col with
    | Recencia => quartiles_of (ag_Recencia <$> t)
    | Frequencia => quartiles_of ((fun a => of_nat (ag_Frequencia a)) <$> t)
    | Valor => quartiles_of (ag_Valor <$> t)
    end.

(** ** Marketing actions *)

(** Lines 113-122. *)
Definition action_dict : gmap string string :=
  list_to_map
    [ ("AAA", "Clientes VIP: foco em retenção e programas de fidelidade");
      ("AAB", "Clientes importantes: mantenha o relacionamento ativo");
      ("ABB", "Clientes em crescimento: ofereça incentivos");
      ("BBB", "Clientes comuns: monitore e ofereça promoções");
      ("BBC", "Clientes em recuperação: crie campanhas de reativação");
      ("CCC", "Clientes de risco: considere reativação ou incentivo");
      ("CCD", "Clientes inativos: campanhas de reativação específicas");
      ("DDD", "Clientes perdidos: análise de feedback e retenção") ].

(** The text shown when the selected code has no entry, line 135. *)
Definition not_found : string := "Ação não encontrada".

(** [action_dict.get(code, 'Ação não encontrada')], line 135; the selection
    is [None] when the select box had no option. *)
Definition lookup_action (code : option string) : string :=
  default not_found (code ≫= (action_dict !!.)).

(** ** The labelled table *)

(** One line of [df_rfv] after line 123.  [col_Acao] is [None] where
    [map(action_dict)] leaves NaN. *)
Record ClienteRFV : Type := {
  agregado : Agregado;
  col_R : label;
  col_F : label;
  col_V : label;
  col_RFV : string;
  col_Acao : option string
}.

(** Lines 104-123 for one line of the table. *)
Definition classify (q_dict : qdict) (a : Agregado) : ClienteRFV :=
  let r := recencia_class (ag_Recencia a) q_dict in
  let f := freq_val_class (of_nat (ag_Frequencia a)) Frequencia q_dict in
  let v := freq_val_class (ag_Valor a) Valor q_dict in
  {| agregado := a; col_R := r; col_F := f; col_V := v;
     col_RFV := rfv_code r f v;
     col_Acao := action_dict !! rfv_code r f v |}.

(** Lines 100-123. *)
Definition label_table (t : list Agregado) : list ClienteRFV :=
  classify (make_q_dict t) <$> t.

(** Lines 76-123: the computation of [df_rfv], with the exceptions the
    column accesses raise, in the order the script makes them. *)
Definition compute_rfv (dia_atual : Z) (df : DataFrame) : result (list ClienteRFV) :=
  getitem df "DiaCompra" ;;
  groupby df "ID_cliente" ;;
  getitem df "DiaCompra" ;;
  groupby df "ID_cliente" ;;
  getattr df "CodigoCompra" ;;
  groupby df "ID_cliente" ;;
  getattr df "ValorTotal" ;;
  mret (label_table (compute_aggregates dia_atual (rows df))).

(** ** The page: Streamlit calls as events *)

(** The figures handed to [st.pyplot]: the three histograms of the selected
    segment (lines 142-159) and the bar chart of the action counts
    (lines 175-179). *)
Inductive figure : Type :=
  | Histograms (recencia : list number) (frequencia : list nat) (valor : list number)
  | BarChart (counts : gmap string nat).

Inductive event : Type :=
  | st_title (s : string)
  | st_write (s : string)
  | st_sidebar_write (s : string)
  | st_sidebar_selectbox (lbl : string) (options : list string)
  | st_write_table (t : list ClienteRFV)
  | st_pyplot (fig : figure)
  | st_download_button (lbl : string) (data : list ClienteRFV) (file_name : string)
  | st_table (counts : gmap string nat)
  | st_error (msg : string).

(** The calls into the plotting and export libraries, whose own failures
    are inputs of the model. *)
Inductive stage : Type := PlotHistograms | ExportCsv | PlotBars.

(** What the run depends on besides the file: the clock, the option the
    user picks in the select box, and the exception (if any) each external
    stage raises. *)
Record Env : Type := {
  dia_atual : Z;
  choice : nat;
  fault : stage -> option exn
}.

(** The uploaded file: its name and what each reader makes of it. *)
Record UploadedFile : Type := {
  name : string;
  read_csv : result DataFrame;
  read_excel : result DataFrame
}.

(** A script step: it appends to the events emitted so far and returns a
    value or raises. *)
Record St (T : Type) : Type := MkSt { run : list event -> list event * result T }.
Arguments MkSt {T} run.
Arguments run {T} s log.

#[global] Instance St_ret : MRet St := fun _ v => MkSt (fun log => (log, Ok v)).
#[global] Instance St_bind : MBind St := fun _ _ k c =>
  MkSt (fun log =>
          match run c log with
          | (log', Ok v) => run (k v) log'
          | (log', Raise e) => (log', Raise e)
          end).

Definition emit (e : event) : St unit := MkSt (fun log => (log ++ [e], Ok tt)).

Definition lift {T : Type} (r : result T) : St T := MkSt (fun log => (log, r)).

Definition external (env : Env) (s : stage) : St unit :=
  MkSt (fun log =>
          match fault env s with
          | Some e => (log, Raise e)
          | None => (log, Ok tt)
          end).

(** [s.endswith(suffix)]. *)
Definition endswith (s suffix : string) : bool :=
  let n := String.length s in
  let k := String.length suffix in
  (k <=? n)%nat && String.eqb (substring (n - k) k s) suffix.

(** The value of the select box: the option picked, the first option when
    the pick is out of range, [None] when there is no option. *)
Definition selectbox (options : list string) (pick : nat) : option string :=
  match options !! pick with
  | Some o => Some o
  | None => head options
  end.

(** How an f-string prints the selection. *)
Definition sel_str (sel : option string) : string := default "None" sel.

(** [value_counts] of the action column (line 168): how many lines carry
    each action; lines without an action are not counted. *)
Definition value_counts (t : list ClienteRFV) : gmap string nat :=
  foldr (fun c m =>
           match col_Acao c with
           | Some a => <[a := S (default 0%nat (m !! a))]> m
           | None => m
           end) ∅ t.

Definition intro_text : string := "
    **RFV** significa recência, frequência, valor e é utilizado para segmentação de clientes baseado no comportamento de compras dos clientes e agrupa eles em clusters parecidos. Utilizando esse tipo de agrupamento podemos realizar ações de marketing e CRM melhores direcionadas, ajudando assim na personalização do conteúdo e até a retenção de clientes.

    Para cada cliente é preciso calcular cada uma das componentes abaixo:

    - **Recência (R)**: Quantidade de dias desde a última compra.
    - **Frequência (F)**: Quantidade total de compras no período.
    - **Valor (V)**: Total de dinheiro gasto nas compras do período.

    E é isso que iremos fazer abaixo.
    ".

(** Lines 74-75: the reader is chosen by the extension of the file name. *)
Definition read_upload (data_file : UploadedFile) : result DataFrame :=
  if endswith (name data_file) ".csv" then read_csv data_file else read_excel data_file.

(** Lines 73-179: the body of the [try]. *)
Definition try_body (env : Env) (data_file : UploadedFile) : St unit :=
  df_compras ← lift (read_upload data_file);
  df_rfv ← lift (compute_rfv (dia_atual env) df_compras);
  emit (st_sidebar_write "## Selecione o Grupo RFV") ;;
  let options := isort String.leb (remove_dups (col_RFV <$> df_rfv)) in
  emit (st_sidebar_selectbox "Escolha o segmento RFV para análise" options) ;;
  let rfv_selection := selectbox options (choice env) in
  let df_selected_rfv := filter (fun c => Some (col_RFV c) = rfv_selection) df_rfv in
  emit (st_write ("### Análise do Grupo " +:+ sel_str rfv_selection)) ;;
  emit (st_write ("Ação recomendada: " +:+ lookup_action rfv_selection)) ;;
  emit (st_write "Tabela de clientes selecionados:") ;;
  emit (st_write_table df_selected_rfv) ;;
  emit (st_write "Distribuição de Recência, Frequência e Valor para o Grupo Selecionado") ;;
  external env PlotHistograms ;;
  emit (st_pyplot (Histograms ((fun c => ag_Recencia (agregado c)) <$> df_selected_rfv)
                              ((fun c => ag_Frequencia (agregado c)) <$> df_selected_rfv)
                              ((fun c => ag_Valor (agregado c)) <$> df_selected_rfv))) ;;
  external env ExportCsv ;;
  emit (st_download_button "📥 Baixar segmento RFV como CSV" df_selected_rfv
                           (sel_str rfv_selection +:+ "_RFV.csv")) ;;
  emit (st_write "### Quantidade de Clientes por Ação de Marketing:") ;;
  let action_counts := value_counts df_rfv in
  emit (st_table action_counts) ;;
  emit (st_write "Gráfico de Ações de Marketing por Quantidade de Clientes:") ;;
  external env PlotBars ;;
  emit (st_pyplot (BarChart action_counts)).

(** Lines 55-66: what the page shows before a file is looked at. *)
Definition page_header : list event :=
  [st_title "Análise RFV - Recência, Frequência e Valor"; st_write intro_text].

(** Line 182: the handler of [except Exception as e]. *)
Definition report (e : exn) : event :=
  st_error ("Ocorreu um erro ao processar o arquivo: " +:+ exn_str e).

(** Lines 54-182: [main].  The events of the run, and how the call ends:
    [Ok] when [main] returns, [Raise] when an exception leaves it. *)
Definition main (env : Env) (data_file : option UploadedFile) : list event * result unit :=
  match data_file with
  | None => (page_header, Ok tt)
  | Some f =>
      match run (try_body env f) page_header with
      | (log, Ok _) => (log, Ok tt)
      | (log, Raise e) => (log ++ [report e], Ok tt)
      end
  end.

(** The four columns the script reads. *)
Definition all_columns : list string :=
  ["ID_cliente"; "DiaCompra"; "CodigoCompra"; "ValorTotal"].

(** No external stage fails. *)
Definition no_fault : stage -> option exn := fun _ => None.

(** A CSV upload that parses to [df]. *)
Definition csv_upload (df : DataFrame) : UploadedFile :=
  {| name := "compras.csv"; read_csv := Ok df;
     read_excel := Raise (ExternalError "File is not a zip file") |}.

(** ** Vocabulary of the statements *)

(** The four intervals that thresholds p25, p50, p75 cut the line into,
    named from the lowest to the highest. *)
Definition bucket (p25 p50 p75 : Q) (i : label) (x : Q) : Prop :=
  match i with
  | A => (x <= p25)%Q
  | B => (p25 < x /\ x <= p50)%Q
  | C => (p50 < x /\ x <= p75)%Q
  | D => (p75 < x)%Q
  end.

(** The label of the same interval when high values are the good ones. *)
Definition mirror (l : label) : label :=
  match l with A => D | B => C | C => B | D => A end.

(** The position of a label, 'A' first. *)
Definition rank (l : label) : nat :=
  match l with A => 0 | B => 1 | C => 2 | D => 3 end%nat.

(** [t] holds the numeric thresholds p25 <= p50 <= p75. *)
Definition sorted_thresholds (t : quartiles) (p25 p50 p75 : Q) : Prop :=
  t = Quartiles (Num p25) (Num p50) (Num p75) /\ (p25 <= p50)%Q /\ (p50 <= p75)%Q.

(** The line of the aggregate table for customer [k], read off the lines
    of the input directly. *)
Definition aggregate_of (dia_atual : Z) (l : list Compra) (k : string) : Agregado :=
  let ultima := max_date (DiaCompra <$> group_rows k l) in
  {| ag_ID_cliente := k;
     ag_DiaUltimaCompra := ultima;
     ag_Recencia := days_since dia_atual ultima;
     ag_Frequencia := nunique (CodigoCompra <$> group_rows k l);
     ag_Valor := Num (sum_skipna (ValorTotal <$> group_rows k l)) |}.

(** The value that linear interpolation reads at position [pos] of the
    sorted values [vs]. *)
Definition interp (v0 : Q) (vs : list Q) (pos : Q) : Q :=
  let lo := Qfloor pos in
  let a := nth (Z.to_nat lo) vs v0 in
  let b := nth (Z.to_nat (lo + 1)) vs a in
  (a + (b - a) * (pos - inject_Z lo))%Q.

(** The customer identifiers of a keyed table. *)
Definition keys {X : Type} (t : list (string * X)) : list string := fst <$> t.

Definition all_labels : list label := [A; B; C; D].

(** The 64 three-letter codes over A, B, C, D. *)
Definition all_codes : list string :=
  r ← all_labels; f ← all_labels; v ← all_labels; [rfv_code r f v].

(** The codes that have an entry in the dictionary. *)
Definition curated : list string :=
  ["AAA"; "AAB"; "ABB"; "BBB"; "BBC"; "CCC"; "CCD"; "DDD"].

(** [a] comes before [b], or is [b], in the order of Python strings. *)
Definition string_le (a b : string) : Prop := String.leb a b = true.

(** The lines that belong to some customer. *)
Definition identified (l : list Compra) : list Compra :=
  filter (fun r => is_Some (ID_cliente r)) l.

(** Line 128: the options of the select box, the distinct codes of the
    table in sorted order. *)
Definition segment_options (t : list ClienteRFV) : list string :=
  isort String.leb (remove_dups (col_RFV <$> t)).

(** Lines 127-128: the code the select box returns for the pick [pick]. *)
Definition selected_segment (t : list ClienteRFV) (pick : nat) : option string :=
  selectbox (segment_options t) pick.

(** Line 131: the lines of the selected segment. *)
Definition segment_rows (t : list ClienteRFV) (pick : nat) : list ClienteRFV :=
  filter (fun c => Some (col_RFV c) = selected_segment t pick) t.

(** Lines 126-141: what the page shows of the selected segment before the
    first chart is drawn. *)
Definition shown_segment (t : list ClienteRFV) (pick : nat) : list event :=
  [ st_sidebar_write "## Selecione o Grupo RFV";
    st_sidebar_selectbox "Escolha o segmento RFV para análise" (segment_options t);
    st_write ("### Análise do Grupo " +:+ sel_str (selected_segment t pick));
    st_write ("Ação recomendada: " +:+ lookup_action (selected_segment t pick));
    st_write "Tabela de clientes selecionados:";
    st_write_table (segment_rows t pick);
    st_write "Distribuição de Recência, Frequência e Valor para o Grupo Selecionado" ].

(** Lines 142-159: the histograms of the selected segment. *)
Definition shown_histograms (t : list ClienteRFV) (pick : nat) : list event :=
  [ st_pyplot (Histograms ((fun c => ag_Recencia (agregado c)) <$> segment_rows t pick)
                          ((fun c => ag_Frequencia (agregado c)) <$> segment_rows t pick)
                          ((fun c => ag_Valor (agregado c)) <$> segment_rows t pick)) ].

(** Lines 162-174: the download button and the table of action counts. *)
Definition shown_export (t : list ClienteRFV) (pick : nat) : list event :=
  [ st_download_button "📥 Baixar segmento RFV como CSV" (segment_rows t pick)
                       (sel_str (selected_segment t pick) +:+ "_RFV.csv");
    st_write "### Quantidade de Clientes por Ação de Marketing:";
    st_table (value_counts t);
    st_write "Gráfico de Ações de Marketing por Quantidade de Clientes:" ].

(** Lines 175-179: the bar chart of the action counts. *)
Definition shown_bars (t : list ClienteRFV) : list event :=
  [ st_pyplot (BarChart (value_counts t)) ].

(** The event is an error message. *)
Definition is_error (e : event) : Prop :=
  match e with st_error _ => True | _ => False end.



(** * Properties *)

(** ** Comparisons *)

Lemma Qle_bool_reflect (x y : Q) : reflect (x <= y)%Q (Qle_bool x y).
Proof.
  destruct (Qle_bool x y) eqn:E; constructor.
  - by apply Qle_bool_iff.
  - intros H. apply Qle_bool_iff in H. congruence.
Qed.

Lemma num_le_Num (x y : Q) : num_le (Num x) (Num y) = true <-> (x <= y)%Q.
Proof. apply Qle_bool_iff. Qed.

Lemma num_lt_Num (x y : Q) : num_lt (Num x) (Num y) = true <-> (x < y)%Q.
Proof.
  simpl. destruct (Qle_bool_reflect y x) as [H|H]; simpl; split; intros; try done; lra.
Qed.

(** Case analysis on every comparison of rationals in the goal. *)
Ltac qcases :=
  repeat match goal with
         | |- context [Qle_bool ?a ?b] => destruct (Qle_bool_reflect a b)
         end.

(** ** The two classifiers *)

(** C1. For every recency value x (a number, or NaN) and every triple of
    numeric thresholds (p25, p50, p75) held by [q_dict] for the recency
    column, [recencia_class] returns 'A' when x <= p25, 'B' when
    p25 < x <= p50, 'C' when p50 < x <= p75 and 'D' otherwise, the cases
    being read in this order.  A value exactly at a threshold goes to the
    better class: p25 itself is 'A', p50 is 'A' or 'B', p75 is never 'D'. *)
Theorem recencia_class_thresholds (x : number) (p25 p50 p75 : Q) (q_dict : qdict) :
  q_dict Recencia = Quartiles (Num p25) (Num p50) (Num p75) ->
  recencia_class x q_dict =
    (if num_le x (Num p25) then A
     else if num_lt (Num p25) x && num_le x (Num p50) then B
     else if num_lt (Num p50) x && num_le x (Num p75) then C
     else D)
  /\ recencia_class (Num p25) q_dict = A
  /\ (recencia_class (Num p50) q_dict = A \/ recencia_class (Num p50) q_dict = B)
  /\ recencia_class (Num p75) q_dict <> D.
Proof.
  intros Hq. unfold recencia_class. rewrite Hq. simpl.
  split; [|split; [|split]].
  - destruct x as [|x]; simpl; [done|]. qcases; simpl; try done; lra.
  - qcases; try done; lra.
  - qcases; auto; lra.
  - qcases; try done; lra.
Qed.

(** The recency thresholds of the scenario: 23.25, 24.5 and 25.75 days. *)
Lemma recencia_class_thresholds_witness :
  let q_dict := make_q_dict (compute_aggregates (midnight 2024 2 1) scenario) in
  q_dict Recencia = Quartiles (Num (93 # 4)) (Num (49 # 2)) (Num (103 # 4))
  /\ recencia_class (Num 22) q_dict = A
  /\ recencia_class (Num (93 # 4)) q_dict = A.
Proof.
  split; [reflexivity|].
  pose proof (recencia_class_thresholds (Num 22) (93 # 4) (49 # 2) (103 # 4)
    (make_q_dict (compute_aggregates (midnight 2024 2 1) scenario)) eq_refl) as [H1 [H2 _]].
  split; [exact H1 | exact H2].
Defined.

(** C2. For every frequency or value metric x and every triple of numeric
    thresholds held by [q_dict] for that column, [freq_val_class] returns
    'D' when x <= p25, 'C' when p25 < x <= p50, 'B' when p50 < x <= p75 and
    'A' otherwise, the cases being read in this order.  In particular a
    value exactly equal to p25 is classified 'D'. *)
Theorem freq_val_class_thresholds (x : number) (fv : metric) (p25 p50 p75 : Q)
    (q_dict : qdict) :
  q_dict fv = Quartiles (Num p25) (Num p50) (Num p75) ->
  freq_val_class x fv q_dict =
    (if num_le x (Num p25) then D
     else if num_lt (Num p25) x && num_le x (Num p50) then C
     else if num_lt (Num p50) x && num_le x (Num p75) then B
     else A)
  /\ freq_val_class (Num p25) fv q_dict = D.
Proof.
  intros Hq. unfold freq_val_class. rewrite Hq. simpl.
  split.
  - destruct x as [|x]; simpl; [done|]. qcases; simpl; try done; lra.
  - qcases; try done; lra.
Qed.

(** The frequency thresholds of the scenario: 1.25, 1.5 and 1.75 orders. *)
Lemma freq_val_class_thresholds_witness :
  let q_dict := make_q_dict (compute_aggregates (midnight 2024 2 1) scenario) in
  q_dict Frequencia = Quartiles (Num (5 # 4)) (Num (3 # 2)) (Num (7 # 4))
  /\ freq_val_class (of_nat 2) Frequencia q_dict = A
  /\ freq_val_class (Num (5 # 4)) Frequencia q_dict = D.
Proof.
  split; [reflexivity|].
  pose proof (freq_val_class_thresholds (of_nat 2) Frequencia (5 # 4) (3 # 2) (7 # 4)
    (make_q_dict (compute_aggregates (midnight 2024 2 1) scenario)) eq_refl) as [H1 H2].
  split; [exact H1 | exact H2].
Defined.

(** ** Sorting keeps the elements *)

Section SortFacts.
Context {T : Type} (leb : T -> T -> bool).

Lemma insert_sorted_Permutation (x : T) (l : list T) :
  insert_sorted leb x l ≡ₚ x :: l.
Proof.
  induction l as [|y l IH]; simpl; [done|].
  destruct (leb x y); [done|].
  rewrite IH. apply perm_swap.
Qed.

Lemma isort_Permutation (l : list T) : isort leb l ≡ₚ l.
Proof.
  induction l as [|x l IH]; simpl; [done|].
  rewrite insert_sorted_Permutation. by f_equiv.
Qed.

Lemma elem_of_isort (x : T) (l : list T) : x ∈ isort leb l <-> x ∈ l.
Proof. by rewrite isort_Permutation. Qed.

Lemma NoDup_isort (l : list T) : NoDup (isort leb l) <-> NoDup l.
Proof. by rewrite isort_Permutation. Qed.
End SortFacts.

(** ** Groups *)

Lemma elem_of_group_keys (k : string) (l : list Compra) :
  k ∈ group_keys l <-> exists r, r ∈ l /\ ID_cliente r = Some k.
Proof.
  unfold group_keys.
  by rewrite elem_of_isort, elem_of_remove_dups, list_elem_of_omap.
Qed.

Lemma NoDup_group_keys (l : list Compra) : NoDup (group_keys l).
Proof. apply NoDup_isort, NoDup_remove_dups. Qed.

Lemma elem_of_group_rows (r : Compra) (k : string) (l : list Compra) :
  r ∈ group_rows k l <-> ID_cliente r = Some k /\ r ∈ l.
Proof. unfold group_rows. by rewrite list_elem_of_filter. Qed.

(** ** The inner join over tables with one line per key *)

Lemma filter_key_fmap {Y : Type} (g : string -> Y) (k : string) (ks : list string) :
  NoDup ks -> k ∈ ks ->
  filter (fun ky : string * Y => ky.1 = k) ((fun k' => (k', g k')) <$> ks) = [(k, g k)].
Proof.
  induction 1 as [|k' ks Hk' Hnd IH]; intros Hin.
  - by apply elem_of_nil in Hin.
  - rewrite fmap_cons, filter_cons. simpl.
    destruct (decide (k' = k)) as [->|Hne].
    + f_equal. clear IH Hin.
      induction ks as [|k'' ks IH]; [done|].
      rewrite fmap_cons, filter_cons. simpl.
      apply not_elem_of_cons in Hk' as [Hne Hk'].
      apply NoDup_cons in Hnd as [_ Hnd].
      destruct (decide (k'' = k)); [congruence|]. by apply IH.
    + apply IH. apply elem_of_cons in Hin as [?|?]; [congruence|done].
Qed.

Lemma merge_same_keys {X Y : Type} (f : string -> X) (g : string -> Y)
    (ks' ks : list string) :
  NoDup ks -> (forall k, k ∈ ks' -> k ∈ ks) ->
  merge ((fun k => (k, f k)) <$> ks') ((fun k => (k, g k)) <$> ks)
  = (fun k => (k, (f k, g k))) <$> ks'.
Proof.
  intros Hnd. unfold merge.
  induction ks' as [|k ks' IH]; intros Hsub; [done|].
  rewrite !fmap_cons. simpl.
  rewrite (filter_key_fmap g k ks Hnd) by (apply Hsub; left).
  simpl. f_equal. apply IH. intros k' Hk'. apply Hsub. by right.
Qed.

(** The join of lines 96-97 has exactly one line per group key, made of
    the three aggregates of that key. *)
Lemma compute_aggregates_eq (dia_atual : Z) (l : list Compra) :
  compute_aggregates dia_atual l = aggregate_of dia_atual l <$> group_keys l.
Proof.
  unfold compute_aggregates, df_recencia, df_frequencia, df_valor.
  pose proof (NoDup_group_keys l) as Hnd.
  rewrite (merge_same_keys _ _ _ _ Hnd) by done.
  rewrite (merge_same_keys _ _ _ _ Hnd) by done.
  rewrite <- list_fmap_compose. done.
Qed.

(** C7. For every real input value x and thresholds p25 <= p50 <= p75, each
    classifier returns exactly one label, and the label tells which of the
    four intervals (-inf, p25], (p25, p50], (p50, p75], (p75, +inf) holds x:
    A, B, C, D in this order for recency, D, C, B, A for frequency and
    value.  The four intervals cover the line (every x is in one) and do not
    overlap (no x is in two); each class is contiguous: the label moves
    monotonically with x. *)
Theorem classifiers_partition_line (x y : Q) (fv : metric) (q_dict : qdict)
    (r25 r50 r75 f25 f50 f75 : Q) :
  sorted_thresholds (q_dict Recencia) r25 r50 r75 ->
  sorted_thresholds (q_dict fv) f25 f50 f75 ->
  (forall l, recencia_class (Num x) q_dict = l <-> bucket r25 r50 r75 l x)
  /\ (forall l, freq_val_class (Num x) fv q_dict = l <-> bucket f25 f50 f75 (mirror l) x)
  /\ (exists i, bucket r25 r50 r75 i x)
  /\ (forall i j, bucket r25 r50 r75 i x -> bucket r25 r50 r75 j x -> i = j)
  /\ (exists i, bucket f25 f50 f75 i x)
  /\ (forall i j, bucket f25 f50 f75 i x -> bucket f25 f50 f75 j x -> i = j)
  /\ ((x <= y)%Q ->
      (rank (recencia_class (Num x) q_dict) <= rank (recencia_class (Num y) q_dict))%nat
      /\ (rank (freq_val_class (Num y) fv q_dict) <= rank (freq_val_class (Num x) fv q_dict))%nat).
Proof.
  intros (Hr & Hr1 & Hr2) (Hf & Hf1 & Hf2).
  unfold recencia_class, freq_val_class. rewrite Hr, Hf. simpl.
  split; [|split; [|split; [|split; [|split; [|split]]]]].
  - intros l. qcases; destruct l; simpl; split; intros; try done; lra.
  - intros l. qcases; destruct l; simpl; split; intros; try done; lra.
  - destruct (Qlt_le_dec r25 x); [|by exists A].
    destruct (Qlt_le_dec r50 x); [|by exists B].
    destruct (Qlt_le_dec r75 x); [by exists D|by exists C].
  - intros i j. destruct i, j; simpl; intros; try done; lra.
  - destruct (Qlt_le_dec f25 x); [|by exists A].
    destruct (Qlt_le_dec f50 x); [|by exists B].
    destruct (Qlt_le_dec f75 x); [by exists D|by exists C].
  - intros i j. destruct i, j; simpl; intros; try done; lra.
  - intros Hxy. split; qcases; simpl; try lia; lra.
Qed.

(** With the thresholds of the scenario, 24 days is class 'B' and 1 order is
    class 'D'. *)
Lemma classifiers_partition_line_witness :
  let q_dict := make_q_dict (compute_aggregates (midnight 2024 2 1) scenario) in
  recencia_class (Num 24) q_dict = B /\ freq_val_class (Num 1) Frequencia q_dict = D.
Proof.
  assert (Hr : sorted_thresholds
                 (make_q_dict (compute_aggregates (midnight 2024 2 1) scenario) Recencia)
                 (93 # 4) (49 # 2) (103 # 4)).
  { split; [reflexivity|]. split; by apply Qle_bool_iff. }
  assert (Hf : sorted_thresholds
                 (make_q_dict (compute_aggregates (midnight 2024 2 1) scenario) Frequencia)
                 (5 # 4) (3 # 2) (7 # 4)).
  { split; [reflexivity|]. split; by apply Qle_bool_iff. }
  destruct (classifiers_partition_line 24 24 Frequencia _ _ _ _ _ _ _ Hr Hf)
    as (H1 & _).
  destruct (classifiers_partition_line 1 1 Frequencia _ _ _ _ _ _ _ Hr Hf)
    as (_ & H2 & _).
  split.
  - apply H1. simpl. split; [by apply num_lt_Num | by apply Qle_bool_iff].
  - apply H2. simpl. by apply Qle_bool_iff.
Defined.

(** ** The aggregates of one customer *)

Lemma max_date_all_None (l : list (option Z)) :
  (forall d, d ∈ l -> d = None) -> max_date l = None.
Proof.
  induction l as [|d l IH]; intros H; simpl; [done|].
  rewrite (H d) by left. apply IH. intros d' Hd'. apply H. by right.
Qed.

Lemma max_date_Some (l : list (option Z)) (t : Z) :
  max_date l = Some t ->
  Some t ∈ l /\ forall t', Some t' ∈ l -> t' <= t.
Proof.
  revert t. induction l as [|d l IH]; intros t; simpl; [done|].
  destruct d as [u|], (max_date l) as [m|] eqn:Hm; intros Ht; simplify_eq.
  - destruct (IH m eq_refl) as [Hin Hle]. split.
    + destruct (Z.max_spec u m) as [[_ ->]|[_ ->]]; [by right|by left].
    + intros t' [?|Ht']%elem_of_cons; simplify_eq; [lia|].
      specialize (Hle _ Ht'). lia.
  - split; [by left|].
    intros t' [?|Ht']%elem_of_cons; simplify_eq; [lia|].
    exfalso. clear IH.
    induction l as [|d l IH]; [by apply elem_of_nil in Ht'|].
    simpl in Hm. apply elem_of_cons in Ht' as [<-|Ht'].
    + by destruct (max_date l).
    + destruct d; [by destruct (max_date l)|]. by apply IH.
  - destruct (IH t eq_refl) as [Hin Hle]. split; [by right|].
    intros t' [?|Ht']%elem_of_cons; [done|]. by apply Hle.
Qed.

Lemma length_omap_le {X Y : Type} (f : X -> option Y) (l : list X) :
  (length (omap f l) <= length l)%nat.
Proof. induction l as [|x l IH]; csimpl; [done|]. destruct (f x); csimpl; lia. Qed.

Lemma length_remove_dups_le (l : list string) :
  (length (remove_dups l) <= length l)%nat.
Proof.
  induction l as [|x l IH]; simpl; [done|].
  destruct (decide_rel elem_of x l); simpl; lia.
Qed.

Lemma nunique_le_length (l : list (option string)) : (nunique l <= length l)%nat.
Proof.
  unfold nunique. etrans; [apply length_remove_dups_le | apply length_omap_le].
Qed.

Lemma elem_of_compute_aggregates (dia_atual : Z) (l : list Compra) (a : Agregado) :
  a ∈ compute_aggregates dia_atual l <->
  a = aggregate_of dia_atual l (ag_ID_cliente a) /\ ag_ID_cliente a ∈ group_keys l.
Proof.
  rewrite compute_aggregates_eq, list_elem_of_fmap. split.
  - intros (k & -> & Hk). done.
  - intros [Ha Hk]. eauto.
Qed.

(** ** The join and the customers without a valid date *)

(** C3, as the code has it.  The three aggregates are combined by inner
    join on the customer identifier: a customer is in the joined table
    exactly when it is in all three aggregates.  Each aggregate has a line
    for every non-null customer identifier of the input, so the join drops
    nobody: a customer whose every purchase date fails to parse is present
    in the final table, with a missing last-purchase date, a missing (NaN)
    Recencia and the label 'D' for R. *)
Theorem join_keeps_customers_without_dates (dia_atual : Z) (l : list Compra) (k : string) :
  (k ∈ ag_ID_cliente <$> compute_aggregates dia_atual l <->
   k ∈ keys (df_recencia dia_atual l) /\ k ∈ keys (df_frequencia l) /\ k ∈ keys (df_valor l))
  /\ (k ∈ keys (df_recencia dia_atual l) <-> exists r, r ∈ l /\ ID_cliente r = Some k)
  /\ ((exists r, r ∈ l /\ ID_cliente r = Some k) ->
      (forall r, r ∈ l -> ID_cliente r = Some k -> DiaCompra r = None) ->
      exists c, c ∈ label_table (compute_aggregates dia_atual l)
                /\ ag_ID_cliente (agregado c) = k
                /\ ag_DiaUltimaCompra (agregado c) = None
                /\ ag_Recencia (agregado c) = NaN
                /\ col_R c = D).
Proof.
  assert (Hkeys : forall X (f : string -> X),
             keys ((fun k => (k, f k)) <$> group_keys l) = group_keys l).
  { intros X f. unfold keys. rewrite <- list_fmap_compose.
    rewrite <- (list_fmap_id (group_keys l)) at 2. done. }
  unfold df_recencia, df_frequencia, df_valor.
  rewrite !Hkeys, compute_aggregates_eq, <- list_fmap_compose.
  change (ag_ID_cliente ∘ aggregate_of dia_atual l) with (@id string).
  rewrite list_fmap_id, elem_of_group_keys.
  split; [tauto|]. split; [done|].
  intros Hk Hnone.
  exists (classify (make_q_dict (aggregate_of dia_atual l <$> group_keys l))
                   (aggregate_of dia_atual l k)).
  assert (Hmax : max_date (DiaCompra <$> group_rows k l) = None).
  { apply max_date_all_None. intros d (r & -> & Hr)%list_elem_of_fmap.
    apply elem_of_group_rows in Hr as [Hid Hr]. by apply Hnone. }
  split.
  - unfold label_table. apply list_elem_of_fmap_2, list_elem_of_fmap_2.
    by apply elem_of_group_keys.
  - unfold classify, aggregate_of, recencia_class. simpl. by rewrite Hmax.
Qed.

Lemma join_keeps_customers_without_dates_witness :
  exists c, c ∈ label_table (compute_aggregates (midnight 2024 2 1) one_undated)
            /\ ag_ID_cliente (agregado c) = "C2"
            /\ ag_DiaUltimaCompra (agregado c) = None
            /\ ag_Recencia (agregado c) = NaN
            /\ col_R c = D.
Proof.
  destruct (join_keeps_customers_without_dates (midnight 2024 2 1) one_undated "C2")
    as (_ & _ & H).
  apply H.
  - exists (compra "C2" None "O2" 50). split; [|done]. right. left.
  - intros r Hr Hid. unfold one_undated in Hr.
    apply elem_of_cons in Hr as [->|Hr]; [done|].
    apply list_elem_of_singleton in Hr as ->. done.
Defined.

(** C3, as the claim has it, fails: the customer C2, whose only purchase
    date does not parse, is a line of the final table. *)
Lemma undated_customer_is_not_dropped :
  Forall (fun r => ID_cliente r = Some "C2" -> DiaCompra r = None) one_undated
  /\ compute_rfv (midnight 2024 2 1) {| columns := all_columns; rows := one_undated |}
     = Ok [ {| agregado := {| ag_ID_cliente := "C1";
                              ag_DiaUltimaCompra := Some (midnight 2024 1 1);
                              ag_Recencia := Num 31;
                              ag_Frequencia := 1;
                              ag_Valor := Num 100 |};
               col_R := A; col_F := D; col_V := A;
               col_RFV := "ADA"; col_Acao := None |};
            {| agregado := {| ag_ID_cliente := "C2";
                              ag_DiaUltimaCompra := None;
                              ag_Recencia := NaN;
                              ag_Frequencia := 1;
                              ag_Valor := Num 50 |};
               col_R := D; col_F := D; col_V := D;
               col_RFV := "DDD";
               col_Acao := Some "Clientes perdidos: análise de feedback e retenção" |} ].
Proof.
  split.
  - repeat constructor; simpl; congruence.
  - vm_compute. reflexivity.
Qed.

(** ** Frequencia *)

(** C4. For every customer of the aggregate table, Frequencia is the number
    of distinct purchase-order identifiers on the lines of that customer
    (the length of a duplicate-free list holding exactly those
    identifiers); it never exceeds the number of lines of the customer,
    and on an input where two lines of a customer carry the same order it
    is strictly less. *)
Theorem frequencia_counts_distinct_orders :
  (forall (dia_atual : Z) (l : list Compra) (a : Agregado),
      a ∈ compute_aggregates dia_atual l ->
      (exists orders : list string,
          NoDup orders
          /\ (forall o, o ∈ orders <->
                        exists r, r ∈ l /\ ID_cliente r = Some (ag_ID_cliente a)
                                  /\ CodigoCompra r = Some o)
          /\ ag_Frequencia a = length orders)
      /\ (ag_Frequencia a <= length (group_rows (ag_ID_cliente a) l))%nat)
  /\ (exists a, a ∈ compute_aggregates (midnight 2024 2 1) repeated_order
                /\ ag_Frequencia a = 2%nat
                /\ length (group_rows (ag_ID_cliente a) repeated_order) = 3%nat).
Proof.
  split.
  - intros dia_atual l a [Ha _]%elem_of_compute_aggregates.
    assert (Hf : ag_Frequencia a = nunique (CodigoCompra <$> group_rows (ag_ID_cliente a) l))
      by (by rewrite Ha at 1).
    rewrite Hf. clear Ha Hf. split.
    + exists (remove_dups (omap id (CodigoCompra <$> group_rows (ag_ID_cliente a) l))).
      split; [apply NoDup_remove_dups|]. split; [|done].
      intros o. rewrite elem_of_remove_dups, list_elem_of_omap. split.
      * intros (oo & (r & -> & Hr)%list_elem_of_fmap & Ho).
        apply elem_of_group_rows in Hr as [Hid Hr]. eauto.
      * intros (r & Hr & Hid & Ho). exists (Some o). split; [|done].
        apply list_elem_of_fmap. exists r. split; [done|].
        by apply elem_of_group_rows.
    + etrans; [apply nunique_le_length|]. by rewrite length_fmap.
  - eexists. split; [|split].
    + rewrite compute_aggregates_eq. left.
    + reflexivity.
    + reflexivity.
Qed.

Lemma frequencia_counts_distinct_orders_witness :
  let a := aggregate_of (midnight 2024 2 1) scenario "C1" in
  (ag_Frequencia a <= length (group_rows (ag_ID_cliente a) scenario))%nat.
Proof.
  destruct frequencia_counts_distinct_orders as [H _].
  apply (H (midnight 2024 2 1) scenario (aggregate_of (midnight 2024 2 1) scenario "C1")).
  rewrite compute_aggregates_eq. left.
Defined.

(** ** The scenario of three purchases *)

Lemma days_since_between (dia_atual t d : Z) :
  t + d * ns_per_day <= dia_atual < t + (d + 1) * ns_per_day ->
  days_since dia_atual (Some t) = Num (inject_Z d).
Proof.
  intros H. simpl. do 2 f_equal. symmetry.
  apply (Z.div_unique_pos _ _ _ (dia_atual - t - d * ns_per_day)); unfold ns_per_day in *; lia.
Qed.

(** C6. For the transactions (C1, 2024-01-01, O1, 100), (C1, 2024-01-10,
    O2, 50), (C2, 2024-01-05, O3, 200) and a reference instant on
    2024-02-01, the aggregate table has exactly two lines: C1 with
    Recencia 22, Frequencia 2, Valor 150 and C2 with Recencia 27,
    Frequencia 1, Valor 200. *)
Theorem scenario_aggregates (dia_atual : Z) :
  midnight 2024 2 1 <= dia_atual < midnight 2024 2 2 ->
  compute_aggregates dia_atual scenario =
    [ {| ag_ID_cliente := "C1"; ag_DiaUltimaCompra := Some (midnight 2024 1 10);
         ag_Recencia := Num 22; ag_Frequencia := 2; ag_Valor := Num 150 |};
      {| ag_ID_cliente := "C2"; ag_DiaUltimaCompra := Some (midnight 2024 1 5);
         ag_Recencia := Num 27; ag_Frequencia := 1; ag_Valor := Num 200 |} ].
Proof.
  intros Hnow. rewrite compute_aggregates_eq.
  assert (Hk : group_keys scenario = ["C1"; "C2"]) by (vm_compute; reflexivity).
  assert (Hd1 : max_date (DiaCompra <$> group_rows "C1" scenario) = Some (midnight 2024 1 10))
    by (vm_compute; reflexivity).
  assert (Hd2 : max_date (DiaCompra <$> group_rows "C2" scenario) = Some (midnight 2024 1 5))
    by (vm_compute; reflexivity).
  assert (Hf1 : nunique (CodigoCompra <$> group_rows "C1" scenario) = 2%nat)
    by (vm_compute; reflexivity).
  assert (Hf2 : nunique (CodigoCompra <$> group_rows "C2" scenario) = 1%nat)
    by (vm_compute; reflexivity).
  assert (Hv1 : sum_skipna (ValorTotal <$> group_rows "C1" scenario) = 150%Q)
    by (vm_compute; reflexivity).
  assert (Hv2 : sum_skipna (ValorTotal <$> group_rows "C2" scenario) = 200%Q)
    by (vm_compute; reflexivity).
  assert (Hn1 : midnight 2024 2 1 = midnight 2024 1 10 + 22 * ns_per_day)
    by (vm_compute; reflexivity).
  assert (Hn2 : midnight 2024 2 1 = midnight 2024 1 5 + 27 * ns_per_day)
    by (vm_compute; reflexivity).
  assert (Hn3 : midnight 2024 2 2 = midnight 2024 2 1 + ns_per_day)
    by (vm_compute; reflexivity).
  rewrite Hk, !fmap_cons, fmap_nil. unfold aggregate_of.
  rewrite Hd1, Hd2, Hf1, Hf2, Hv1, Hv2.
  rewrite (days_since_between dia_atual (midnight 2024 1 10) 22) by lia.
  rewrite (days_since_between dia_atual (midnight 2024 1 5) 27) by lia.
  reflexivity.
Qed.

Lemma scenario_aggregates_witness :
  compute_aggregates (midnight 2024 2 1) scenario =
    [ {| ag_ID_cliente := "C1"; ag_DiaUltimaCompra := Some (midnight 2024 1 10);
         ag_Recencia := Num 22; ag_Frequencia := 2; ag_Valor := Num 150 |};
      {| ag_ID_cliente := "C2"; ag_DiaUltimaCompra := Some (midnight 2024 1 5);
         ag_Recencia := Num 27; ag_Frequencia := 1; ag_Valor := Num 200 |} ].
Proof.
  apply (scenario_aggregates (midnight 2024 2 1)). vm_compute.
  split; [discriminate | reflexivity].
Defined.

(** ** The sign of Recencia *)

(** C8, as the claim has it, fails: a customer whose last valid purchase
    date, 2024-03-01, is after the computation instant, 2024-02-01, is in
    the final table with Recencia -29. *)
Lemma future_purchase_negative_recencia :
  compute_aggregates (midnight 2024 2 1) future_purchase =
    [ {| ag_ID_cliente := "C1"; ag_DiaUltimaCompra := Some (midnight 2024 3 1);
         ag_Recencia := Num (-29 # 1); ag_Frequencia := 1; ag_Valor := Num 100 |} ]
  /\ num_lt (Num (-29 # 1)) (Num 0) = true.
Proof. split; vm_compute; reflexivity. Qed.

(** C8, as the code has it.  For every customer of the final table with a
    valid last-purchase date t (the latest of the customer's parseable
    dates), Recencia is the whole number of days from t to the computation
    instant, rounded down, and it is >= 0 exactly when t is not after the
    computation instant. *)
Theorem recencia_nonneg_iff_not_future (dia_atual : Z) (l : list Compra)
    (a : Agregado) (t : Z) :
  a ∈ compute_aggregates dia_atual l ->
  ag_DiaUltimaCompra a = Some t ->
  (exists r, r ∈ l /\ ID_cliente r = Some (ag_ID_cliente a) /\ DiaCompra r = Some t)
  /\ (forall r t', r ∈ l -> ID_cliente r = Some (ag_ID_cliente a) ->
                   DiaCompra r = Some t' -> t' <= t)
  /\ ag_Recencia a = Num (inject_Z ((dia_atual - t) / ns_per_day))
  /\ (num_le (Num 0) (ag_Recencia a) = true <-> t <= dia_atual).
Proof.
  intros [Ha _]%elem_of_compute_aggregates Ht.
  assert (Hmax : max_date (DiaCompra <$> group_rows (ag_ID_cliente a) l) = Some t)
    by (by rewrite Ha in Ht).
  assert (Hrec : ag_Recencia a = Num (inject_Z ((dia_atual - t) / ns_per_day))).
  { rewrite Ha. simpl. by rewrite Hmax. }
  apply max_date_Some in Hmax as [Hin Hle].
  split; [|split; [|split]].
  - apply list_elem_of_fmap in Hin as (r & Hr & [Hid Hin]%elem_of_group_rows). eauto.
  - intros r t' Hr Hid Hd. apply Hle. rewrite <- Hd.
    apply list_elem_of_fmap_2. by apply elem_of_group_rows.
  - done.
  - rewrite Hrec, num_le_Num.
    change 0%Q with (inject_Z 0). rewrite <- Zle_Qle.
    assert (0 < ns_per_day) by done.
    split; intros H0.
    + destruct (Z_le_gt_dec t dia_atual) as [|Hgt]; [done|].
      assert ((dia_atual - t) / ns_per_day < 0); [|lia].
      apply Z.div_lt_upper_bound; lia.
    + apply Z.div_pos; lia.
Qed.

Lemma recencia_nonneg_iff_not_future_witness :
  let a := aggregate_of (midnight 2024 2 1) scenario "C1" in
  ag_Recencia a = Num (inject_Z ((midnight 2024 2 1 - midnight 2024 1 10) / ns_per_day))
  /\ (num_le (Num 0) (ag_Recencia a) = true <-> midnight 2024 1 10 <= midnight 2024 2 1).
Proof.
  assert (Hin : aggregate_of (midnight 2024 2 1) scenario "C1"
                ∈ compute_aggregates (midnight 2024 2 1) scenario).
  { rewrite compute_aggregates_eq. left. }
  destruct (recencia_nonneg_iff_not_future (midnight 2024 2 1) scenario
              (aggregate_of (midnight 2024 2 1) scenario "C1") (midnight 2024 1 10)
              Hin eq_refl) as (_ & _ & H1 & H2).
  split; [exact H1 | exact H2].
Defined.

(** ** A missing recency *)

(** C10. [recencia_class] is total on a missing recency: for NaN the three
    comparisons are false and the result is 'D', whatever the thresholds.
    So in the labelled table a customer whose Recencia is NaN has the label
    'D' for R and a complete three-letter code, 'D' followed by its F and V
    labels; and the computation of the table raises nothing as soon as the
    four columns are there. *)
Theorem recencia_class_nan (q_dict : qdict) :
  recencia_class NaN q_dict = D
  /\ (forall (t : list Agregado) (c : ClienteRFV),
         c ∈ label_table t -> ag_Recencia (agregado c) = NaN ->
         col_R c = D
         /\ col_RFV c = "D" +:+ label_str (col_F c) +:+ label_str (col_V c)
         /\ String.length (col_RFV c) = 3%nat)
  /\ (forall (dia_atual : Z) (df : DataFrame),
         (forall c, c ∈ all_columns -> c ∈ columns df) ->
         compute_rfv dia_atual df
         = Ok (label_table (compute_aggregates dia_atual (rows df)))).
Proof.
  split; [done|]. split.
  - intros t c (a & -> & Ha)%list_elem_of_fmap Hnan. simpl in *.
    unfold recencia_class. rewrite Hnan. simpl.
    split; [done|]. split; [done|].
    by destruct (freq_val_class _ Frequencia _), (freq_val_class _ Valor _).
  - intros dia_atual df Hcols.
    assert (Hc : forall c, c ∈ all_columns -> has_column df c = true).
    { intros c Hc. apply bool_decide_eq_true. by apply Hcols. }
    unfold compute_rfv, getitem, groupby, getattr.
    rewrite !Hc by (unfold all_columns; set_solver). done.
Qed.

Lemma recencia_class_nan_witness :
  exists c, c ∈ label_table (compute_aggregates (midnight 2024 2 1) one_undated)
            /\ ag_ID_cliente (agregado c) = "C2"
            /\ col_R c = D /\ col_RFV c = "DDD".
Proof.
  destruct (recencia_class_nan (fun _ => Quartiles NaN NaN NaN)) as (_ & H & _).
  eexists. split; [right; left|].
  split; [reflexivity|].
  edestruct (H (compute_aggregates (midnight 2024 2 1) one_undated)) as (H1 & H2 & _);
    [right; left | reflexivity |].
  split; [exact H1 | exact H2].
Defined.

(** ** The action dictionary *)

(** C5. The lookup of an action is total over the three-letter codes on
    A, B, C, D.  Each of the 8 curated codes AAA, AAB, ABB, BBB, BBC, CCC,
    CCD, DDD has its fixed action string, AAA having 'Clientes VIP: foco em
    retenção e programas de fidelidade'; each of the other 56 of the 64
    codes has no entry, and the lookup answers with the explicit
    not-found text instead of raising. *)
Theorem lookup_action_total :
  action_dict !! "AAA" = Some "Clientes VIP: foco em retenção e programas de fidelidade"
  /\ action_dict !! "AAB" = Some "Clientes importantes: mantenha o relacionamento ativo"
  /\ action_dict !! "ABB" = Some "Clientes em crescimento: ofereça incentivos"
  /\ action_dict !! "BBB" = Some "Clientes comuns: monitore e ofereça promoções"
  /\ action_dict !! "BBC" = Some "Clientes em recuperação: crie campanhas de reativação"
  /\ action_dict !! "CCC" = Some "Clientes de risco: considere reativação ou incentivo"
  /\ action_dict !! "CCD" = Some "Clientes inativos: campanhas de reativação específicas"
  /\ action_dict !! "DDD" = Some "Clientes perdidos: análise de feedback e retenção"
  /\ (forall r f v : label,
         (rfv_code r f v ∈ curated ->
          exists a, action_dict !! rfv_code r f v = Some a
                    /\ lookup_action (Some (rfv_code r f v)) = a
                    /\ a <> not_found)
         /\ (rfv_code r f v ∉ curated ->
             action_dict !! rfv_code r f v = None
             /\ lookup_action (Some (rfv_code r f v)) = not_found))
  /\ length all_codes = 64%nat
  /\ NoDup all_codes
  /\ length (filter (fun code => code ∉ curated) all_codes) = 56%nat
  /\ lookup_action (Some "ABD") = not_found.
Proof.
  repeat (split; [vm_compute; reflexivity|]).
  split; [|split; [reflexivity|split; [|split; [reflexivity|vm_compute; reflexivity]]]].
  - intros r f v.
    destruct (decide (rfv_code r f v ∈ curated)) as [Hin|Hnin].
    + split; [intros _|done].
      destruct r, f, v;
        first [ by (apply (bool_decide_pack _) in Hin; vm_compute in Hin)
              | eexists; split; [vm_compute; reflexivity|];
                split; [vm_compute; reflexivity | discriminate] ].
    + split; [done|intros _].
      destruct r, f, v;
        first [ by (exfalso; apply Hnin; apply (bool_decide_unpack _); vm_compute)
              | split; vm_compute; reflexivity ].
  - apply (bool_decide_unpack _). vm_compute. done.
Qed.

Lemma lookup_action_total_witness :
  lookup_action (Some (rfv_code A A A))
  = "Clientes VIP: foco em retenção e programas de fidelidade"
  /\ lookup_action (Some (rfv_code A B D)) = not_found.
Proof.
  destruct lookup_action_total as (_ & _ & _ & _ & _ & _ & _ & _ & H & _).
  split.
  - destruct (H A A A) as [H1 _].
    destruct H1 as (a & Ha & Hl & _).
    + apply (bool_decide_unpack _). vm_compute. exact I.
    + rewrite Hl. vm_compute in Ha. by injection Ha as <-.
  - destruct (H A B D) as [_ H2]. apply H2.
    intros Hin. apply (bool_decide_pack _) in Hin. vm_compute in Hin. exact Hin.
Defined.

(** ** Errors *)

Lemma run_lift_Ok {T U : Type} (v : T) (k : T -> St U) (log : list event) :
  run (lift (Ok v) ≫= k) log = run (k v) log.
Proof. done. Qed.

Lemma run_lift_Raise {T U : Type} (e : exn) (k : T -> St U) (log : list event) :
  run (lift (Raise e) ≫= k) log = (log, Raise e).
Proof. done. Qed.

(** A table that lacks one of the four columns makes the computation of
    lines 76-93 raise, and the exception names a column that is missing. *)
Lemma compute_rfv_missing_column (dia : Z) (df : DataFrame) (c : string) :
  c ∈ all_columns -> c ∉ columns df ->
  exists e c', compute_rfv dia df = Raise e
               /\ c' ∈ all_columns /\ (c' ∉ columns df)
               /\ (e = KeyError c' \/ e = AttributeError "DataFrameGroupBy" c').
Proof.
  intros Hc Hmiss. unfold compute_rfv, getitem, groupby, getattr, has_column.
  assert (Hall : forall c0, bool_decide (c0 ∈ all_columns) = true -> c0 ∈ all_columns)
    by (intros c0; apply bool_decide_eq_true).
  destruct (bool_decide_reflect ("DiaCompra" ∈ columns df)) as [H1|H1].
  2:{ exists (KeyError "DiaCompra"), "DiaCompra". split; [done|].
      split; [by apply Hall|]. split; [done|by left]. }
  destruct (bool_decide_reflect ("ID_cliente" ∈ columns df)) as [H2|H2].
  2:{ exists (KeyError "ID_cliente"), "ID_cliente". split; [done|].
      split; [by apply Hall|]. split; [done|by left]. }
  destruct (bool_decide_reflect ("CodigoCompra" ∈ columns df)) as [H3|H3].
  2:{ exists (AttributeError "DataFrameGroupBy" "CodigoCompra"), "CodigoCompra".
      split; [done|]. split; [by apply Hall|]. split; [done|by right]. }
  destruct (bool_decide_reflect ("ValorTotal" ∈ columns df)) as [H4|H4].
  2:{ exists (AttributeError "DataFrameGroupBy" "ValorTotal"), "ValorTotal".
      split; [done|]. split; [by apply Hall|]. split; [done|by right]. }
  exfalso. unfold all_columns in Hc.
  repeat (apply elem_of_cons in Hc as [->|Hc]; [done|]).
  by apply elem_of_nil in Hc.
Qed.

(** C9. If the uploaded table lacks a required column (ID_cliente,
    DiaCompra, CodigoCompra or ValorTotal), the run shows an error message
    naming a missing column and nothing of the computation: after the page
    header the only event is the error.  Every exception raised inside the
    body, by the reader, by the computation or by a plotting or export
    call, is caught: [main] appends the error message for it to what was
    shown so far and returns; no call of [main] ends with an exception. *)
Theorem errors_are_reported :
  (forall (env : Env) (f : UploadedFile) (df : DataFrame) (c : string),
      read_upload f = Ok df -> c ∈ all_columns -> c ∉ columns df ->
      exists e c', c' ∈ all_columns /\ (c' ∉ columns df)
                   /\ (e = KeyError c' \/ e = AttributeError "DataFrameGroupBy" c')
                   /\ main env (Some f) = (page_header ++ [report e], Ok tt))
  /\ (forall (env : Env) (f : UploadedFile) (log : list event) (e : exn),
         run (try_body env f) page_header = (log, Raise e) ->
         main env (Some f) = (log ++ [report e], Ok tt))
  /\ (forall (env : Env) (data_file : option UploadedFile),
         (main env data_file).2 = Ok tt).
Proof.
  split; [|split].
  - intros env f df c Hread Hc Hmiss.
    destruct (compute_rfv_missing_column (dia_atual env) df c Hc Hmiss)
      as (e & c' & He & Hc' & Hmiss' & Hkind).
    exists e, c'. repeat (split; [done|]).
    unfold main, try_body. by rewrite Hread, run_lift_Ok, He, run_lift_Raise.
  - intros env f log e Hrun. unfold main. by rewrite Hrun.
  - intros env [f|]; [|done]. unfold main.
    by destruct (run (try_body env f) page_header) as [log [[]|e]].
Qed.

(** A file without the CodigoCompra column, and a run whose bar chart
    fails after the tables were shown. *)
Lemma errors_are_reported_witness :
  main {| dia_atual := midnight 2024 2 1; choice := 0; fault := no_fault |}
       (Some (csv_upload {| columns := ["ID_cliente"; "DiaCompra"; "ValorTotal"];
                            rows := scenario |}))
  = (page_header
       ++ [st_error "Ocorreu um erro ao processar o arquivo: 'DataFrameGroupBy' object has no attribute 'CodigoCompra'"],
     Ok tt)
  /\ exists log,
      main {| dia_atual := midnight 2024 2 1; choice := 0;
              fault := fun s => match s with
                                | PlotBars => Some (ExternalError "bar chart")
                                | _ => None
                                end |}
           (Some (csv_upload {| columns := all_columns; rows := scenario |}))
      = (log ++ [report (ExternalError "bar chart")], Ok tt).
Proof.
  destruct errors_are_reported as (H1 & H2 & _).
  split.
  - destruct (H1 {| dia_atual := midnight 2024 2 1; choice := 0; fault := no_fault |}
                (csv_upload {| columns := ["ID_cliente"; "DiaCompra"; "ValorTotal"];
                               rows := scenario |})
                {| columns := ["ID_cliente"; "DiaCompra"; "ValorTotal"]; rows := scenario |}
                "CodigoCompra")
      as (e & c' & _ & _ & _ & Hmain).
    + reflexivity.
    + apply (bool_decide_unpack _). vm_compute. exact I.
    + intros Hin. apply (bool_decide_pack _) in Hin. vm_compute in Hin. exact Hin.
    + vm_compute. reflexivity.
  - eexists. apply H2. vm_compute. reflexivity.
Defined.

(** ** Quartiles of a column *)

Lemma StronglySorted_insert_sorted (x : Q) (l : list Q) :
  StronglySorted Qle l -> StronglySorted Qle (insert_sorted Qle_bool x l).
Proof.
  induction 1 as [|y l Hs IH Hy]; simpl.
  - repeat constructor.
  - destruct (Qle_bool_reflect x y) as [Hxy|Hxy].
    + constructor; [by constructor|].
      constructor; [done|].
      eapply Forall_impl; [exact Hy|]. intros z Hz. simpl in Hz. lra.
    + constructor; [done|].
      rewrite insert_sorted_Permutation. constructor; [lra|done].
Qed.

Lemma StronglySorted_isort (l : list Q) : StronglySorted Qle (isort Qle_bool l).
Proof.
  induction l as [|x l IH]; simpl; [constructor|].
  by apply StronglySorted_insert_sorted.
Qed.

Lemma StronglySorted_lookup_le (l : list Q) (i j : nat) (a b : Q) :
  StronglySorted Qle l -> (i <= j)%nat -> l !! i = Some a -> l !! j = Some b ->
  (a <= b)%Q.
Proof.
  intros Hs. revert i j a b.
  induction Hs as [|x l Hs IH Hx]; intros i j a b Hij Hi Hj.
  - done.
  - destruct i as [|i], j as [|j]; simpl in *; simplify_eq.
    + lra.
    + rewrite Forall_forall in Hx. apply Hx. by eapply list_elem_of_lookup_2.
    + lia.
    + apply (IH i j); [lia|done|done].
Qed.

(** Within the range of positions, the interpolated value lies between the
    two neighbouring ranks. *)
Lemma interp_between (v0 : Q) (vs : list Q) (pos : Q) :
  StronglySorted Qle vs -> (0 <= pos)%Q ->
  (pos <= inject_Z (Z.of_nat (length vs) - 1))%Q ->
  exists a,
    vs !! Z.to_nat (Qfloor pos) = Some a
    /\ (a <= default a (vs !! Z.to_nat (Qfloor pos + 1)))%Q
    /\ (interp v0 vs pos ==
        a + (default a (vs !! Z.to_nat (Qfloor pos + 1)) - a) * (pos - inject_Z (Qfloor pos)))%Q.
Proof.
  intros Hs H0 Hn.
  assert (Hlo0 : 0 <= Qfloor pos).
  { change 0 with (Qfloor (inject_Z 0)). by apply Qfloor_resp_le. }
  assert (Hlon : Qfloor pos <= Z.of_nat (length vs) - 1).
  { rewrite <- (Qfloor_Z (Z.of_nat (length vs) - 1)). by apply Qfloor_resp_le. }
  destruct (lookup_lt_is_Some_2 vs (Z.to_nat (Qfloor pos))) as [a Ha]; [lia|].
  exists a. unfold interp. rewrite (nth_lookup_Some _ _ _ _ Ha), nth_lookup.
  split; [done|]. split; [|done].
  destruct (vs !! Z.to_nat (Qfloor pos + 1)) as [b|] eqn:Hb; simpl; [|lra].
  eapply (StronglySorted_lookup_le vs); [done| |exact Ha|exact Hb]. lia.
Qed.

Lemma lerp_bounds (a b f : Q) :
  (a <= b)%Q -> (0 <= f)%Q -> (f <= 1)%Q ->
  (a <= a + (b - a) * f)%Q /\ (a + (b - a) * f <= b)%Q.
Proof.
  intros Hab Hf0 Hf1.
  pose proof (Qmult_le_0_compat (b - a) f).
  pose proof (Qmult_le_0_compat (b - a) (1 - f)).
  split; lra.
Qed.

Lemma lerp_mono (a b f g : Q) :
  (a <= b)%Q -> (f <= g)%Q -> (a + (b - a) * f <= a + (b - a) * g)%Q.
Proof.
  intros Hab Hfg. pose proof (Qmult_le_0_compat (b - a) (g - f)). lra.
Qed.

Lemma interp_mono (v0 : Q) (vs : list Q) (pos1 pos2 : Q) :
  StronglySorted Qle vs -> (0 <= pos1)%Q -> (pos1 <= pos2)%Q ->
  (pos2 <= inject_Z (Z.of_nat (length vs) - 1))%Q ->
  (interp v0 vs pos1 <= interp v0 vs pos2)%Q.
Proof.
  intros Hs H0 H12 Hn.
  destruct (interp_between v0 vs pos1 Hs) as (a1 & Ha1 & Hab1 & E1); [done|lra|].
  destruct (interp_between v0 vs pos2 Hs) as (a2 & Ha2 & Hab2 & E2); [lra|done|].
  rewrite E1, E2. clear E1 E2.
  pose proof (Qfloor_le pos1) as Hf1. pose proof (Qlt_floor pos1) as Hg1.
  pose proof (Qfloor_le pos2) as Hf2. pose proof (Qlt_floor pos2) as Hg2.
  pose proof (Qfloor_resp_le _ _ H12) as Hlo.
  assert (Hlo0 : 0 <= Qfloor pos1).
  { change 0 with (Qfloor (inject_Z 0)). by apply Qfloor_resp_le. }
  rewrite inject_Z_plus in Hg1, Hg2. change (inject_Z 1) with 1%Q in Hg1, Hg2.
  destruct (Z_le_lt_eq_dec _ _ Hlo) as [Hlt|Heq].
  - (* different ranks: the value at pos1 is below its upper rank, which is
       below the lower rank of pos2 *)
    destruct (lookup_lt_is_Some_2 vs (Z.to_nat (Qfloor pos1 + 1))) as [b1 Hb1].
    { apply lookup_lt_Some in Ha2. lia. }
    rewrite Hb1 in *. simpl in *.
    assert (Hba : (b1 <= a2)%Q).
    { eapply (StronglySorted_lookup_le vs); [done| |exact Hb1|exact Ha2]. lia. }
    set (b2 := default a2 (vs !! Z.to_nat (Qfloor pos2 + 1))) in *.
    destruct (lerp_bounds a1 b1 (pos1 - inject_Z (Qfloor pos1))) as [_ H1]; [done|lra|lra|].
    destruct (lerp_bounds a2 b2 (pos2 - inject_Z (Qfloor pos2))) as [H2 _]; [done|lra|lra|].
    lra.
  - (* same rank: the same segment, further along *)
    rewrite Heq in *. simplify_eq.
    apply lerp_mono; [done|lra].
Qed.

Lemma quantile_interp (col : list number) (p : Q) :
  quantile col p =
    match isort Qle_bool (omap finite col) with
    | [] => NaN
    | v0 :: _ =>
        Num (Qred (interp v0 (isort Qle_bool (omap finite col))
                     (inject_Z (Z.of_nat (length (isort Qle_bool (omap finite col))) - 1) * p)))
    end.
Proof. unfold quantile, interp. by destruct (isort Qle_bool (omap finite col)). Qed.

(** The quartiles of a column that holds a number are numbers, in
    increasing order. *)
Lemma quartiles_of_sorted (col : list number) (x : Q) :
  Num x ∈ col ->
  exists p25 p50 p75, sorted_thresholds (quartiles_of col) p25 p50 p75.
Proof.
  intros Hx. unfold quartiles_of, sorted_thresholds. rewrite !quantile_interp.
  pose proof (StronglySorted_isort (omap finite col)) as Hs.
  assert (Hin : x ∈ isort Qle_bool (omap finite col)).
  { apply elem_of_isort, list_elem_of_omap. by exists (Num x). }
  destruct (isort Qle_bool (omap finite col)) as [|v0 vs] eqn:Hvs.
  { by apply elem_of_nil in Hin. }
  set (n := inject_Z (Z.of_nat (length (v0 :: vs)) - 1)).
  assert (Hn : (0 <= n)%Q).
  { unfold n. change 0%Q with (inject_Z 0). rewrite <- Zle_Qle. simpl. lia. }
  eexists _, _, _. split; [reflexivity|].
  rewrite !Qred_correct. split; apply interp_mono; try done; fold n.
  - pose proof (Qmult_le_0_compat n (1 # 4)). lra.
  - assert (n * (1 # 4) <= n * (1 # 2))%Q; [|done].
    pose proof (Qmult_le_0_compat n (1 # 4)). lra.
  - pose proof (Qmult_le_0_compat n (1 # 4)). lra.
  - pose proof (Qmult_le_0_compat n (1 # 2)). lra.
  - assert (n * (1 # 2) <= n * (3 # 4))%Q; [|done].
    pose proof (Qmult_le_0_compat n (1 # 4)). lra.
  - pose proof (Qmult_le_0_compat n (1 # 4)). lra.
Qed.

(** In the labelled table a number is only ever compared with numeric,
    increasing thresholds: the quartiles of a column are NaN only when the
    column holds no number at all. *)
Lemma label_table_thresholds_sorted (t : list Agregado) (c : ClienteRFV) :
  c ∈ label_table t ->
  (forall x, ag_Recencia (agregado c) = Num x ->
             exists p25 p50 p75, sorted_thresholds (make_q_dict t Recencia) p25 p50 p75)
  /\ (exists p25 p50 p75, sorted_thresholds (make_q_dict t Frequencia) p25 p50 p75)
  /\ (forall x, ag_Valor (agregado c) = Num x ->
                exists p25 p50 p75, sorted_thresholds (make_q_dict t Valor) p25 p50 p75).
Proof.
  intros (a & -> & Ha)%list_elem_of_fmap. simpl.
  split; [|split].
  - intros x Hx. apply (quartiles_of_sorted _ x).
    rewrite <- Hx. by apply list_elem_of_fmap_2.
  - apply (quartiles_of_sorted _ (inject_Z (Z.of_nat (ag_Frequencia a)))).
    by apply (list_elem_of_fmap_2 (fun a => of_nat (ag_Frequencia a))).
  - intros x Hx. apply (quartiles_of_sorted _ x).
    rewrite <- Hx. by apply list_elem_of_fmap_2.
Qed.

(** * Further properties of the script *)

(** ** The customers of the aggregate table *)

Lemma Sorted_insert_sorted (x : string) (l : list string) :
  Sorted string_le l -> Sorted string_le (insert_sorted String.leb x l).
Proof.
  induction 1 as [|y l Hs IH Hy]; simpl.
  - by repeat constructor.
  - destruct (String.leb x y) eqn:Hxy.
    + constructor; [by constructor|]. by constructor.
    + constructor; [done|].
      assert (Hyx : string_le y x).
      { destruct (String.leb_total x y) as [H|H]; [congruence|done]. }
      destruct Hy as [|z l Hyz]; simpl; [by constructor|].
      destruct (String.leb x z); by constructor.
Qed.

Lemma Sorted_isort_strings (l : list string) : Sorted string_le (isort String.leb l).
Proof.
  induction l as [|x l IH]; simpl; [constructor|].
  by apply Sorted_insert_sorted.
Qed.

(** X1. The aggregate table has exactly one line per customer: its
    identifiers are pairwise distinct, in increasing order, and are exactly
    the non-null identifiers of the input; lines without an identifier
    belong to nobody, so the table never has more lines than the input has
    identified lines. *)
Theorem one_line_per_customer (dia_atual : Z) (l : list Compra) :
  NoDup (ag_ID_cliente <$> compute_aggregates dia_atual l)
  /\ Sorted string_le (ag_ID_cliente <$> compute_aggregates dia_atual l)
  /\ (forall k, k ∈ ag_ID_cliente <$> compute_aggregates dia_atual l <->
                 exists r, r ∈ l /\ ID_cliente r = Some k)
  /\ (length (compute_aggregates dia_atual l) <= length (identified l))%nat.
Proof.
  rewrite compute_aggregates_eq, <- list_fmap_compose.
  change (ag_ID_cliente ∘ aggregate_of dia_atual l) with (@id string).
  rewrite list_fmap_id, length_fmap.
  split; [apply NoDup_group_keys|].
  split; [apply Sorted_isort_strings|].
  split; [intros k; apply elem_of_group_keys|].
  unfold group_keys. rewrite (Permutation_length (isort_Permutation _ _)).
  etrans; [apply length_remove_dups_le|].
  unfold identified. clear.
  induction l as [|r l IH]; [done|].
  rewrite filter_cons. csimpl.
  destruct (ID_cliente r) as [k|] eqn:Hk; simpl; lia.
Qed.

(** ** Frequencia and Valor *)

(** X2. A customer whose every line lacks a purchase-order identifier has
    Frequencia 0, and only such a customer has: one valid order identifier
    is enough for Frequencia >= 1. *)
Theorem frequencia_zero_iff_no_order (dia_atual : Z) (l : list Compra) (a : Agregado) :
  a ∈ compute_aggregates dia_atual l ->
  (ag_Frequencia a = 0%nat <->
   forall r, r ∈ l -> ID_cliente r = Some (ag_ID_cliente a) -> CodigoCompra r = None).
Proof.
  intros [Ha _]%elem_of_compute_aggregates.
  assert (Hf : ag_Frequencia a = nunique (CodigoCompra <$> group_rows (ag_ID_cliente a) l))
    by (by rewrite Ha at 1).
  rewrite Hf. clear Ha Hf. unfold nunique.
  rewrite length_zero_iff_nil. split.
  - intros Hnil r Hr Hid.
    destruct (CodigoCompra r) as [o|] eqn:Ho; [|done].
    assert (Hin : o ∈ remove_dups (omap id (CodigoCompra <$> group_rows (ag_ID_cliente a) l))).
    { apply elem_of_remove_dups, list_elem_of_omap. exists (Some o). split; [|done].
      rewrite <- Ho. apply list_elem_of_fmap_2. by apply elem_of_group_rows. }
    rewrite Hnil in Hin. by apply elem_of_nil in Hin.
  - intros Hnone.
    destruct (remove_dups _) as [|o os] eqn:Hos; [done|].
    assert (Hin : o ∈ remove_dups (omap id (CodigoCompra <$> group_rows (ag_ID_cliente a) l)))
      by (rewrite Hos; left).
    apply elem_of_remove_dups, list_elem_of_omap in Hin as (oo & Hoo & Hid).
    apply list_elem_of_fmap in Hoo as (r & -> & [Hk Hr]%elem_of_group_rows).
    rewrite (Hnone r Hr Hk) in Hid. done.
Qed.

Lemma frequencia_zero_iff_no_order_witness :
  let l := [ {| ID_cliente := Some "C1"; DiaCompra := None; CodigoCompra := None;
                ValorTotal := Num 10 |} ] in
  ag_Frequencia (aggregate_of 0 l "C1") = 0%nat.
Proof.
  simpl.
  apply (frequencia_zero_iff_no_order 0
           [ {| ID_cliente := Some "C1"; DiaCompra := None; CodigoCompra := None;
                ValorTotal := Num 10 |} ]
           (aggregate_of 0 [ {| ID_cliente := Some "C1"; DiaCompra := None;
                                CodigoCompra := None; ValorTotal := Num 10 |} ] "C1")).
  - rewrite compute_aggregates_eq. left.
  - intros r Hr _. apply list_elem_of_singleton in Hr as ->. done.
Defined.






(** ** Labels along the order of the metrics *)

Lemma recencia_class_mono (x y : Q) (q_dict : qdict) :
  (x <= y)%Q ->
  (rank (recencia_class (Num x) q_dict) <= rank (recencia_class (Num y) q_dict))%nat.
Proof.
  intros Hxy. unfold recencia_class.
  destruct (q_dict Recencia) as [[|p25] [|p50] [|p75]]; simpl;
    qcases; simpl; try lia; lra.
Qed.

Lemma freq_val_class_mono (x y : Q) (fv : metric) (q_dict : qdict) :
  (x <= y)%Q ->
  (rank (freq_val_class (Num y) fv q_dict) <= rank (freq_val_class (Num x) fv q_dict))%nat.
Proof.
  intros Hxy. unfold freq_val_class.
  destruct (q_dict fv) as [[|p25] [|p50] [|p75]]; simpl;
    qcases; simpl; try lia; lra.
Qed.

(** X4. Within one labelled table the labels follow the metrics: of two
    customers with numeric Recencia the more recent one never has a later
    letter for R, and the one with more purchase orders, or with the higher
    numeric Valor, never has a later letter for F, or for V. *)
Theorem labels_follow_the_metrics (t : list Agregado) (c1 c2 : ClienteRFV) :
  c1 ∈ label_table t -> c2 ∈ label_table t ->
  (forall x1 x2 : Q,
      ag_Recencia (agregado c1) = Num x1 -> ag_Recencia (agregado c2) = Num x2 ->
      (x1 <= x2)%Q -> (rank (col_R c1) <= rank (col_R c2))%nat)
  /\ ((ag_Frequencia (agregado c1) <= ag_Frequencia (agregado c2))%nat ->
      (rank (col_F c2) <= rank (col_F c1))%nat)
  /\ (forall v1 v2 : Q,
         ag_Valor (agregado c1) = Num v1 -> ag_Valor (agregado c2) = Num v2 ->
         (v1 <= v2)%Q -> (rank (col_V c2) <= rank (col_V c1))%nat).
Proof.
  intros (a1 & -> & _)%list_elem_of_fmap (a2 & -> & _)%list_elem_of_fmap. simpl.
  split; [|split].
  - intros x1 x2 -> -> Hx. by apply recencia_class_mono.
  - intros Hf. apply freq_val_class_mono.
    rewrite <- Zle_Qle. lia.
  - intros v1 v2 -> -> Hv. by apply freq_val_class_mono.
Qed.

Lemma labels_follow_the_metrics_witness :
  let t := compute_aggregates (midnight 2024 2 1) scenario in
  let c1 := classify (make_q_dict t) (aggregate_of (midnight 2024 2 1) scenario "C1") in
  let c2 := classify (make_q_dict t) (aggregate_of (midnight 2024 2 1) scenario "C2") in
  (rank (col_R c1) <= rank (col_R c2))%nat /\ (rank (col_F c1) <= rank (col_F c2))%nat.
Proof.
  cbv zeta.
  assert (H1 : classify (make_q_dict (compute_aggregates (midnight 2024 2 1) scenario))
                 (aggregate_of (midnight 2024 2 1) scenario "C1")
               ∈ label_table (compute_aggregates (midnight 2024 2 1) scenario)).
  { unfold label_table. apply list_elem_of_fmap_2.
    rewrite compute_aggregates_eq. left. }
  assert (H2 : classify (make_q_dict (compute_aggregates (midnight 2024 2 1) scenario))
                 (aggregate_of (midnight 2024 2 1) scenario "C2")
               ∈ label_table (compute_aggregates (midnight 2024 2 1) scenario)).
  { unfold label_table. apply list_elem_of_fmap_2.
    rewrite compute_aggregates_eq. right. left. }
  split.
  - destruct (labels_follow_the_metrics _ _ _ H1 H2) as (HR & _).
    apply (HR 22%Q 27%Q); [reflexivity | reflexivity | by apply Qle_bool_iff].
  - destruct (labels_follow_the_metrics _ _ _ H2 H1) as (_ & HF & _).
    apply HF. vm_compute. lia.
Defined.

(** ** The customers at the low end *)

Lemma quantile_lower_bound (col : list number) (p x : Q) :
  (0 <= p)%Q -> (p <= 1)%Q ->
  Num x ∈ col -> (forall y, Num y ∈ col -> (x <= y)%Q) ->
  exists q, quantile col p = Num q /\ (x <= q)%Q.
Proof.
  intros Hp0 Hp1 Hx Hmin. rewrite quantile_interp.
  pose proof (StronglySorted_isort (omap finite col)) as Hs.
  assert (Hin : forall y, y ∈ isort Qle_bool (omap finite col) <-> Num y ∈ col).
  { intros y. rewrite elem_of_isort, list_elem_of_omap. split.
    - intros ([|z] & Hz & Hf); simplify_eq/=. done.
    - intros Hy. by exists (Num y). }
  destruct (isort Qle_bool (omap finite col)) as [|v0 vs] eqn:Hvs.
  { apply Hin in Hx. by apply elem_of_nil in Hx. }
  set (n := inject_Z (Z.of_nat (length (v0 :: vs)) - 1)).
  assert (Hn : (0 <= n)%Q).
  { unfold n. change 0%Q with (inject_Z 0). rewrite <- Zle_Qle. simpl. lia. }
  pose proof (Qmult_le_0_compat n p Hn Hp0) as Hnp.
  assert (H1p : (0 <= 1 - p)%Q) by lra.
  pose proof (Qmult_le_0_compat n (1 - p) Hn H1p) as Hnp1.
  destruct (interp_between v0 (v0 :: vs) (n * p) Hs) as (a & Ha & Hab & E);
    [exact Hnp | fold n; lra |].
  eexists. split; [reflexivity|].
  rewrite Qred_correct, E.
  assert (Hxa : (x <= a)%Q).
  { apply Hmin, Hin. by eapply list_elem_of_lookup_2. }
  pose proof (Qfloor_le (n * p)) as Hf1. pose proof (Qlt_floor (n * p)) as Hf2.
  rewrite inject_Z_plus in Hf2. change (inject_Z 1) with 1%Q in Hf2.
  destruct (lerp_bounds a (default a ((v0 :: vs) !! Z.to_nat (Qfloor (n * p) + 1)))
              (n * p - inject_Z (Qfloor (n * p)))) as [Hlow _]; [done|lra|lra|].
  lra.
Qed.

(** X5. The customer at the low end of a metric always gets the first
    bucket: in a labelled table, a customer whose numeric Recencia is the
    smallest is labelled 'A' for R, a customer whose Frequencia is the
    smallest is labelled 'D' for F, and a customer whose numeric Valor is
    the smallest is labelled 'D' for V.  So when all customers tie on a
    metric, all of them get that letter. *)
Theorem lowest_customer_labels (t : list Agregado) (c : ClienteRFV) :
  c ∈ label_table t ->
  (forall x : Q, ag_Recencia (agregado c) = Num x ->
                 (forall a y, a ∈ t -> ag_Recencia a = Num y -> (x <= y)%Q) ->
                 col_R c = A)
  /\ ((forall a, a ∈ t -> (ag_Frequencia (agregado c) <= ag_Frequencia a)%nat) ->
      col_F c = D)
  /\ (forall v : Q, ag_Valor (agregado c) = Num v ->
                    (forall a y, a ∈ t -> ag_Valor a = Num y -> (v <= y)%Q) ->
                    col_V c = D).
Proof.
  intros (a0 & -> & Ha0)%list_elem_of_fmap. simpl.
  split; [|split].
  - intros x Hx Hmin.
    destruct (quantile_lower_bound (ag_Recencia <$> t) (1 # 4) x) as (q & Hq & Hxq);
      [done|done| | |].
    + rewrite <- Hx. by apply list_elem_of_fmap_2.
    + intros y (a & Hy & Ha)%list_elem_of_fmap. by apply (Hmin a).
    + unfold recencia_class. simpl. rewrite Hq, Hx. simpl.
      by destruct (Qle_bool_reflect x q).
  - intros Hmin.
    destruct (quantile_lower_bound ((fun a => of_nat (ag_Frequencia a)) <$> t) (1 # 4)
                (inject_Z (Z.of_nat (ag_Frequencia a0)))) as (q & Hq & Hxq);
      [done|done| | |].
    + by apply (list_elem_of_fmap_2 (fun a => of_nat (ag_Frequencia a))).
    + intros y (a & Hy & Ha)%list_elem_of_fmap. unfold of_nat in Hy. simplify_eq.
      rewrite <- Zle_Qle. specialize (Hmin a Ha). lia.
    + unfold freq_val_class. simpl. rewrite Hq. unfold of_nat. simpl.
      by destruct (Qle_bool_reflect (inject_Z (Z.of_nat (ag_Frequencia a0))) q).
  - intros v Hv Hmin.
    destruct (quantile_lower_bound (ag_Valor <$> t) (1 # 4) v) as (q & Hq & Hvq);
      [done|done| | |].
    + rewrite <- Hv. by apply list_elem_of_fmap_2.
    + intros y (a & Hy & Ha)%list_elem_of_fmap. by apply (Hmin a).
    + unfold freq_val_class. simpl. rewrite Hq, Hv. simpl.
      by destruct (Qle_bool_reflect v q).
Qed.

(** A table with a single customer: the code is ADD. *)
Lemma lowest_customer_labels_witness :
  let t := compute_aggregates (midnight 2024 2 1) future_purchase in
  let c := classify (make_q_dict t) (aggregate_of (midnight 2024 2 1) future_purchase "C1") in
  col_R c = A /\ col_F c = D /\ col_V c = D.
Proof.
  cbv zeta.
  assert (Hc : classify (make_q_dict (compute_aggregates (midnight 2024 2 1) future_purchase))
                 (aggregate_of (midnight 2024 2 1) future_purchase "C1")
               ∈ label_table (compute_aggregates (midnight 2024 2 1) future_purchase)).
  { unfold label_table. apply list_elem_of_fmap_2.
    rewrite compute_aggregates_eq. left. }
  destruct (lowest_customer_labels _ _ Hc) as (HR & HF & HV).
  assert (Hone : forall a, a ∈ compute_aggregates (midnight 2024 2 1) future_purchase ->
                           a = aggregate_of (midnight 2024 2 1) future_purchase "C1").
  { intros a Ha. rewrite compute_aggregates_eq in Ha.
    by apply list_elem_of_singleton in Ha. }
  split; [|split].
  - apply (HR (-29 # 1)%Q); [reflexivity|].
    intros a y Ha Hy. rewrite (Hone a Ha) in Hy. injection Hy as <-. by apply Qle_bool_iff.
  - apply HF. intros a Ha. by rewrite (Hone a Ha).
  - apply (HV 100%Q); [reflexivity|].
    intros a y Ha Hy. rewrite (Hone a Ha) in Hy. injection Hy as <-. by apply Qle_bool_iff.
Defined.

(** ** The run of the page, stage by stage *)

(** The body of the [try] stops at the first stage that raises, and what it
    has shown by then is kept. *)
Lemma run_try_body (env : Env) (f : UploadedFile) (log : list event) :
  run (try_body env f) log =
    match read_upload f with
    | Raise e => (log, Raise e)
    | Ok df =>
        match compute_rfv (dia_atual env) df with
        | Raise e => (log, Raise e)
        | Ok t =>
            let s1 := log ++ shown_segment t (choice env) in
            match fault env PlotHistograms with
            | Some e => (s1, Raise e)
            | None =>
                let s2 := s1 ++ shown_histograms t (choice env) in
                match fault env ExportCsv with
                | Some e => (s2, Raise e)
                | None =>
                    let s3 := s2 ++ shown_export t (choice env) in
                    match fault env PlotBars with
                    | Some e => (s3, Raise e)
                    | None => (s3 ++ shown_bars t, Ok tt)
                    end
                end
            end
        end
    end.
Proof.
  unfold try_body.
  destruct (read_upload f) as [df|e]; [|done]. rewrite run_lift_Ok.
  destruct (compute_rfv (dia_atual env) df) as [t|e]; [|done]. rewrite run_lift_Ok.
  unfold shown_segment, shown_histograms, shown_export, shown_bars,
    segment_rows, selected_segment, segment_options.
  cbn [mbind St_bind run emit external].
  destruct (fault env PlotHistograms) as [e|];
    [by rewrite <- !app_assoc|].
  destruct (fault env ExportCsv) as [e|];
    [by rewrite <- !app_assoc|].
  destruct (fault env PlotBars) as [e|];
    by rewrite <- !app_assoc.
Qed.

#[local] Arguments page_header : simpl never.

Lemma shown_without_error (t : list ClienteRFV) (pick : nat) :
  Forall (fun e => ~ is_error e)
         (shown_segment t pick ++ shown_histograms t pick
            ++ shown_export t pick ++ shown_bars t).
Proof. repeat constructor; exact id. Qed.

(** X6. The error message is shown at most once and nothing follows it.
    Every run starts with the page header; after it come either events
    none of which is an error message (the body ended normally), or such
    events followed by exactly one error message, the one of the exception
    that ended the body. *)
Theorem error_message_comes_last (env : Env) (data_file : option UploadedFile) :
  exists evs,
    (main env data_file).1 = page_header ++ evs
    /\ (Forall (fun e => ~ is_error e) evs
        \/ exists evs' ex, evs = evs' ++ [report ex]
                           /\ Forall (fun e => ~ is_error e) evs').
Proof.
  destruct data_file as [f|].
  2:{ exists []. split; [done|]. left. constructor. }
  unfold main. rewrite run_try_body.
  destruct (read_upload f) as [df|e].
  2:{ exists [report e]. split; [done|]. right. exists [], e. split; [done|constructor]. }
  destruct (compute_rfv (dia_atual env) df) as [t|e].
  2:{ exists [report e]. split; [done|]. right. exists [], e. split; [done|constructor]. }
  pose proof (shown_without_error t (choice env)) as Hok.
  rewrite !Forall_app in Hok. destruct Hok as (H1 & H2 & H3 & H4).
  destruct (fault env PlotHistograms) as [e|]; cbv beta iota zeta delta [fst].
  { eexists. split; [by rewrite <- !app_assoc|]. right.
    by exists (shown_segment t (choice env)), e. }
  destruct (fault env ExportCsv) as [e|]; cbv beta iota zeta delta [fst].
  { eexists. split; [by rewrite <- !app_assoc|]. right.
    exists (shown_segment t (choice env) ++ shown_histograms t (choice env)), e.
    split; [by rewrite <- !app_assoc|]. by rewrite !Forall_app. }
  destruct (fault env PlotBars) as [e|]; cbv beta iota zeta delta [fst].
  { eexists. split; [by rewrite <- !app_assoc|]. right.
    exists (shown_segment t (choice env) ++ shown_histograms t (choice env)
              ++ shown_export t (choice env)), e.
    split; [by rewrite <- !app_assoc|]. by rewrite !Forall_app. }
  eexists. split; [by rewrite <- !app_assoc|]. left. by rewrite !Forall_app.
Qed.

(** X7. Once the table is computed, the segment is on the page whatever
    happens next: after the header come the select box with the codes of
    the table, the title and the recommended action of the selected code,
    and the table of its customers; a chart or an export that fails later
    only adds the error message after them. *)
Theorem selected_segment_is_shown (env : Env) (f : UploadedFile) (df : DataFrame)
    (t : list ClienteRFV) :
  read_upload f = Ok df ->
  compute_rfv (dia_atual env) df = Ok t ->
  exists rest,
    (main env (Some f)).1 = page_header ++ shown_segment t (choice env) ++ rest.
Proof.
  intros Hread Hrfv. unfold main. rewrite run_try_body, Hread, Hrfv.
  destruct (fault env PlotHistograms) as [e|]; cbv beta iota zeta delta [fst].
  { eexists. by rewrite <- !app_assoc. }
  destruct (fault env ExportCsv) as [e|]; cbv beta iota zeta delta [fst].
  { eexists. by rewrite <- !app_assoc. }
  destruct (fault env PlotBars) as [e|]; cbv beta iota zeta delta [fst];
    eexists; by rewrite <- !app_assoc.
Qed.

Lemma selected_segment_is_shown_witness :
  exists rest,
    (main {| dia_atual := midnight 2024 2 1; choice := 0;
             fault := fun _ => Some (ExternalError "no display") |}
          (Some (csv_upload {| columns := all_columns; rows := scenario |}))).1
    = page_header
        ++ shown_segment (label_table (compute_aggregates (midnight 2024 2 1) scenario)) 0
        ++ rest.
Proof.
  apply (selected_segment_is_shown
           {| dia_atual := midnight 2024 2 1; choice := 0;
              fault := fun _ => Some (ExternalError "no display") |}
           (csv_upload {| columns := all_columns; rows := scenario |})
           {| columns := all_columns; rows := scenario |}); reflexivity.
Defined.

(** ** The select box and the selected segment *)

Lemma elem_of_segment_options (t : list ClienteRFV) (s : string) :
  s ∈ segment_options t <-> exists c, c ∈ t /\ col_RFV c = s.
Proof.
  unfold segment_options.
  rewrite elem_of_isort, elem_of_remove_dups, list_elem_of_fmap.
  split; intros (c & H1 & H2); eauto.
Qed.

Lemma selectbox_Some (options : list string) (pick : nat) (s : string) :
  selectbox options pick = Some s -> s ∈ options.
Proof.
  unfold selectbox. destruct (options !! pick) as [o|] eqn:Ho.
  - intros [= <-]. by eapply list_elem_of_lookup_2.
  - destruct options; intros [= <-]. left.
Qed.

Lemma selectbox_None (options : list string) (pick : nat) :
  selectbox options pick = None <-> options = [].
Proof.
  unfold selectbox. split.
  - destruct (options !! pick); [done|]. by destruct options.
  - intros ->. done.
Qed.

(** X8. The select box offers each code of the table once, in sorted
    order.  Its value is one of these codes, and it is None only when the
    table is empty.  The segment shown holds exactly the customers of the
    table that carry the selected code, so it is never empty when the table
    is not, and every customer of the table is in the segment of some
    pick. *)
Theorem segment_is_the_selected_code (t : list ClienteRFV) (pick : nat) :
  NoDup (segment_options t)
  /\ Sorted string_le (segment_options t)
  /\ (forall s, s ∈ segment_options t <-> exists c, c ∈ t /\ col_RFV c = s)
  /\ (selected_segment t pick = None <-> t = [])
  /\ (forall s, selected_segment t pick = Some s ->
                s ∈ segment_options t
                /\ segment_rows t pick <> []
                /\ forall c, c ∈ segment_rows t pick <-> c ∈ t /\ col_RFV c = s)
  /\ (forall c, c ∈ t -> exists pick', c ∈ segment_rows t pick').
Proof.
  split; [apply NoDup_isort, NoDup_remove_dups|].
  split; [apply Sorted_isort_strings|].
  split; [intros s; apply elem_of_segment_options|].
  split; [|split].
  - unfold selected_segment. rewrite selectbox_None. split.
    + intros Hnil. destruct t as [|c t]; [done|].
      assert (Hin : col_RFV c ∈ segment_options (c :: t)).
      { apply elem_of_segment_options. exists c. split; [left|done]. }
      rewrite Hnil in Hin. by apply elem_of_nil in Hin.
    + intros ->. done.
  - intros s Hs.
    assert (Hin : s ∈ segment_options t) by (by eapply selectbox_Some).
    assert (Hrows : forall c, c ∈ segment_rows t pick <-> c ∈ t /\ col_RFV c = s).
    { intros c. unfold segment_rows. rewrite list_elem_of_filter, Hs.
      split; [intros [[= ->] ?]; done | intros [? ->]; done]. }
    split; [done|]. split; [|done].
    apply elem_of_segment_options in Hin as (c & Hc & Hcode).
    intros Hnil. assert (Hc' : c ∈ segment_rows t pick) by (by apply Hrows).
    rewrite Hnil in Hc'. by apply elem_of_nil in Hc'.
  - intros c Hc.
    assert (Hin : col_RFV c ∈ segment_options t).
    { apply elem_of_segment_options. eauto. }
    apply list_elem_of_lookup_1 in Hin as [i Hi].
    exists i. unfold segment_rows. apply list_elem_of_filter. split; [|done].
    unfold selected_segment, selectbox. by rewrite Hi.
Qed.

(** ** Actions of the table *)

(** X9. The table of action counts gives, for each action, the number of
    customers of the table that carry it; an action that no customer has
    is not in the table, and customers without an action are counted
    nowhere. *)
Theorem value_counts_counts_customers (t : list ClienteRFV) (a : string) (n : nat) :
  value_counts t !! a = Some n <->
  (0 < n)%nat /\ n = length (filter (fun c => col_Acao c = Some a) t).
Proof.
  revert n. induction t as [|c t IH]; intros n.
  - simpl. rewrite lookup_empty. split; [done|]. intros [? ->]. simpl in *. lia.
  - rewrite filter_cons. simpl value_counts.
    destruct (col_Acao c) as [a'|] eqn:Ha.
    + destruct (decide (a' = a)) as [->|Hne].
      * rewrite decide_True by done. rewrite lookup_insert_eq. simpl length.
        destruct (value_counts t !! a) as [m|] eqn:Hm; simpl.
        -- destruct (IH m) as [Hm1 _]. destruct (Hm1 eq_refl) as [_ <-].
           split; [intros [= <-]; lia|]. intros [_ ->]. done.
        -- assert (Hz : length (filter (fun c => col_Acao c = Some a) t) = 0%nat).
           { destruct (length (filter (fun c => col_Acao c = Some a) t)) as [|m] eqn:Hl;
               [done|].
             destruct (IH (S m)) as [_ Hs]. discriminate Hs. split; [lia|done]. }
           rewrite Hz. split; [intros [= <-]; lia|]. intros [_ ->]. done.
      * rewrite decide_False by congruence. rewrite lookup_insert_ne by done. apply IH.
    + rewrite decide_False by done. apply IH.
Qed.

(** X10. The action shown for the selected segment is the action of each
    of its customers: for every customer listed under the selection, the
    recommended-action line shows the customer's Ação, or the not-found
    text exactly when the customer has none, that is when the code is not
    one of the curated ones. *)
Theorem shown_action_is_the_customers (t : list Agregado) (pick : nat) (c : ClienteRFV) :
  c ∈ segment_rows (label_table t) pick ->
  lookup_action (selected_segment (label_table t) pick) = default not_found (col_Acao c)
  /\ col_Acao c = action_dict !! col_RFV c
  /\ (col_Acao c = None <-> col_RFV c ∉ curated).
Proof.
  unfold segment_rows. intros [Hsel Hc]%list_elem_of_filter.
  apply list_elem_of_fmap in Hc as (a & -> & _). simpl in *.
  rewrite <- Hsel. split; [done|]. split; [done|].
  destruct (recencia_class _ _), (freq_val_class _ Frequencia _), (freq_val_class _ Valor _);
    vm_compute; split; first [done | intros H; exfalso; apply H; repeat constructor | idtac];
    try (intros _ H; repeat (apply elem_of_cons in H as [H|H]; [discriminate H|]);
         by apply elem_of_nil in H).
Qed.

Lemma shown_action_is_the_customers_witness :
  let t := compute_aggregates (midnight 2024 2 1) one_undated in
  lookup_action (selected_segment (label_table t) 1)
  = "Clientes perdidos: análise de feedback e retenção".
Proof.
  cbv zeta.
  destruct (shown_action_is_the_customers
              (compute_aggregates (midnight 2024 2 1) one_undated) 1
              (classify (make_q_dict (compute_aggregates (midnight 2024 2 1) one_undated))
                        (aggregate_of (midnight 2024 2 1) one_undated "C2")))
    as (H & _).
  - unfold segment_rows. apply list_elem_of_filter. split.
    + vm_compute. reflexivity.
    + unfold label_table. apply list_elem_of_fmap_2.
      rewrite compute_aggregates_eq. right. left.
  - rewrite H. vm_compute. reflexivity.
Defined.

(** ** Which message a missing column gives *)

(** X11. The columns are looked up in a fixed order, and the first one
    that is missing decides the message: DiaCompra, then ID_cliente (both
    by their quoted name, as a KeyError prints), then CodigoCompra, then
    ValorTotal (both as a missing attribute of the group-by object).  With
    the four columns present the computation of the table raises
    nothing. *)
Theorem first_missing_column_is_reported (env : Env) (f : UploadedFile) (df : DataFrame) :
  read_upload f = Ok df ->
  ("DiaCompra" ∉ columns df ->
   main env (Some f)
   = (page_header ++ [st_error "Ocorreu um erro ao processar o arquivo: 'DiaCompra'"], Ok tt))
  /\ ("DiaCompra" ∈ columns df -> "ID_cliente" ∉ columns df ->
      main env (Some f)
      = (page_header ++ [st_error "Ocorreu um erro ao processar o arquivo: 'ID_cliente'"],
         Ok tt))
  /\ ("DiaCompra" ∈ columns df -> "ID_cliente" ∈ columns df ->
      "CodigoCompra" ∉ columns df ->
      main env (Some f)
      = (page_header
           ++ [st_error "Ocorreu um erro ao processar o arquivo: 'DataFrameGroupBy' object has no attribute 'CodigoCompra'"],
         Ok tt))
  /\ ("DiaCompra" ∈ columns df -> "ID_cliente" ∈ columns df ->
      "CodigoCompra" ∈ columns df -> "ValorTotal" ∉ columns df ->
      main env (Some f)
      = (page_header
           ++ [st_error "Ocorreu um erro ao processar o arquivo: 'DataFrameGroupBy' object has no attribute 'ValorTotal'"],
         Ok tt))
  /\ ("DiaCompra" ∈ columns df -> "ID_cliente" ∈ columns df ->
      "CodigoCompra" ∈ columns df -> "ValorTotal" ∈ columns df ->
      compute_rfv (dia_atual env) df
      = Ok (label_table (compute_aggregates (dia_atual env) (rows df)))).
Proof.
  intros Hread.
  assert (Hyes : forall c, c ∈ columns df -> has_column df c = true).
  { intros c Hc. by apply bool_decide_eq_true. }
  assert (Hno : forall c, c ∉ columns df -> has_column df c = false).
  { intros c Hc. by apply bool_decide_eq_false. }
  unfold main. rewrite run_try_body, Hread.
  unfold compute_rfv, getitem, groupby, getattr.
  split; [|split; [|split; [|split]]].
  - intros H1. by rewrite (Hno _ H1).
  - intros H1 H2. by rewrite (Hyes _ H1), (Hno _ H2).
  - intros H1 H2 H3. by rewrite (Hyes _ H1), (Hyes _ H2), (Hno _ H3).
  - intros H1 H2 H3 H4. by rewrite (Hyes _ H1), (Hyes _ H2), (Hyes _ H3), (Hno _ H4).
  - intros H1 H2 H3 H4. by rewrite (Hyes _ H1), (Hyes _ H2), (Hyes _ H3), (Hyes _ H4).
Qed.

(** A file with neither DiaCompra nor ValorTotal: the message is about
    DiaCompra. *)
Lemma first_missing_column_is_reported_witness :
  main {| dia_atual := 0; choice := 0; fault := no_fault |}
       (Some (csv_upload {| columns := ["ID_cliente"; "CodigoCompra"]; rows := scenario |}))
  = (page_header ++ [st_error "Ocorreu um erro ao processar o arquivo: 'DiaCompra'"], Ok tt).
Proof.
  destruct (first_missing_column_is_reported
              {| dia_atual := 0; choice := 0; fault := no_fault |}
              (csv_upload {| columns := ["ID_cliente"; "CodigoCompra"]; rows := scenario |})
              {| columns := ["ID_cliente"; "CodigoCompra"]; rows := scenario |} eq_refl)
    as (H & _).
  apply H. intros Hin. apply (bool_decide_pack _) in Hin. vm_compute in Hin. exact Hin.
Defined.

(** ** Which reader the file goes to *)

Lemma substring_all (s : string) : substring 0 (String.length s) s = s.
Proof. induction s as [|c s IH]; simpl; [done|]. by rewrite IH. Qed.

Lemma substring_app_r (pre suf : string) :
  substring (String.length pre) (String.length suf) (pre +:+ suf) = suf.
Proof. induction pre as [|c pre IH]; simpl; [apply substring_all|done]. Qed.

Lemma string_length_app (s1 s2 : string) :
  String.length (s1 +:+ s2) = (String.length s1 + String.length s2)%nat.
Proof. induction s1 as [|c s1 IH]; simpl; [done|]. by rewrite IH. Qed.

Lemma substring_split (s : string) (i : nat) :
  (i <= String.length s)%nat ->
  s = substring 0 i s +:+ substring i (String.length s - i) s.
Proof.
  revert i. induction s as [|c s IH]; intros i Hi; simpl in *.
  - by destruct i.
  - destruct i as [|i]; simpl.
    + by rewrite substring_all.
    + change (String c (substring 0 i s) +:+ substring i (String.length s - i) s)
        with (String c (substring 0 i s +:+ substring i (String.length s - i) s)).
      f_equal. apply IH. lia.
Qed.

Lemma endswith_spec (s suffix : string) :
  endswith s suffix = true <-> exists pre, s = pre +:+ suffix.
Proof.
  unfold endswith. rewrite andb_true_iff, Nat.leb_le, String.eqb_eq. split.
  - intros [Hle Hsub]. exists (substring 0 (String.length s - String.length suffix) s).
    pose proof (substring_split s (String.length s - String.length suffix)) as Hs.
    replace (String.length s - (String.length s - String.length suffix))%nat
      with (String.length suffix) in Hs by lia.
    rewrite Hsub in Hs. apply Hs. lia.
  - intros [pre ->]. rewrite string_length_app. split; [lia|].
    replace (String.length pre + String.length suffix - String.length suffix)%nat
      with (String.length pre) by lia.
    apply substring_app_r.
Qed.

(** X12. The file goes to the CSV reader exactly when its name is some
    text followed by the four characters '.csv', in lower case; any other
    name, 'DADOS.CSV' for one, goes to the Excel reader.  When the reader
    chosen raises, the page shows the header and the error message of that
    exception, and nothing else. *)
Theorem reader_follows_the_file_name (env : Env) (f : UploadedFile) :
  ((exists pre, name f = pre +:+ ".csv") -> read_upload f = read_csv f)
  /\ ((forall pre, name f <> pre +:+ ".csv") -> read_upload f = read_excel f)
  /\ endswith "DADOS.CSV" ".csv" = false
  /\ (forall e, read_upload f = Raise e ->
                main env (Some f) = (page_header ++ [report e], Ok tt)).
Proof.
  unfold read_upload. split; [|split; [|split]].
  - intros H. apply endswith_spec in H. by rewrite H.
  - intros H. destruct (endswith (name f) ".csv") eqn:E; [|done].
    apply endswith_spec in E as [pre Hpre]. by destruct (H pre).
  - reflexivity.
  - intros e He. unfold main. rewrite run_try_body. unfold read_upload. by rewrite He.
Qed.

Lemma reader_follows_the_file_name_witness :
  let f := {| name := "DADOS.CSV"; read_csv := Ok {| columns := all_columns; rows := scenario |};
              read_excel := Raise (ExternalError "File is not a zip file") |} in
  main {| dia_atual := 0; choice := 0; fault := no_fault |} (Some f)
  = (page_header ++ [report (ExternalError "File is not a zip file")], Ok tt).
Proof.
  cbv zeta.
  destruct (reader_follows_the_file_name
              {| dia_atual := 0; choice := 0; fault := no_fault |}
              {| name := "DADOS.CSV";
                 read_csv := Ok {| columns := all_columns; rows := scenario |};
                 read_excel := Raise (ExternalError "File is not a zip file") |})
    as (_ & _ & _ & H).
  apply H. reflexivity.
Defined.

(** ** The code and its three labels *)

(** X13. The code keeps the three labels apart: two triples of labels
    with the same code are the same triple.  Every code of a labelled
    table is the code of the labels on its line, has three characters and
    is one of the 64 codes over A, B, C, D. *)
Theorem rfv_code_keeps_the_labels :
  (forall r f v r' f' v' : label,
      rfv_code r f v = rfv_code r' f' v' -> r = r' /\ f = f' /\ v = v')
  /\ (forall (t : list Agregado) (c : ClienteRFV),
         c ∈ label_table t ->
         col_RFV c = rfv_code (col_R c) (col_F c) (col_V c)
         /\ String.length (col_RFV c) = 3%nat
         /\ col_RFV c ∈ all_codes).
Proof.
  split.
  - intros r f v r' f' v'.
    destruct r, f, v, r', f', v'; simpl; intros H; first [done | discriminate H].
  - intros t c (a & -> & _)%list_elem_of_fmap. simpl.
    split; [done|].
    destruct (recencia_class _ _), (freq_val_class _ Frequencia _),
      (freq_val_class _ Valor _);
      (split; [reflexivity | apply (bool_decide_unpack _); vm_compute; exact I]).
Qed.

Lemma rfv_code_keeps_the_labels_witness :
  let c := classify (make_q_dict (compute_aggregates (midnight 2024 2 1) scenario))
                    (aggregate_of (midnight 2024 2 1) scenario "C1") in
  col_RFV c = rfv_code (col_R c) (col_F c) (col_V c)
  /\ String.length (col_RFV c) = 3%nat
  /\ col_RFV c ∈ all_codes.
Proof.
  cbv zeta. destruct rfv_code_keeps_the_labels as [_ H].
  apply (H (compute_aggregates (midnight 2024 2 1) scenario)).
  unfold label_table. apply list_elem_of_fmap_2.
  rewrite compute_aggregates_eq. left.
Defined.

(** ** The thresholds the script computes *)

(** X15. The thresholds the script compares a number with are numbers
    themselves, in increasing order p25 <= p50 <= p75: for every line of
    the labelled table this holds for the Frequencia thresholds, and for
    the Recencia and Valor thresholds as soon as the line's own Recencia,
    or Valor, is a number.  The quartiles of a column are NaN only when
    the column holds no number at all. *)
Theorem thresholds_are_numbers_in_order (t : list Agregado) (c : ClienteRFV) :
  c ∈ label_table t ->
  (forall x, ag_Recencia (agregado c) = Num x ->
             exists p25 p50 p75, sorted_thresholds (make_q_dict t Recencia) p25 p50 p75)
  /\ (exists p25 p50 p75, sorted_thresholds (make_q_dict t Frequencia) p25 p50 p75)
  /\ (forall x, ag_Valor (agregado c) = Num x ->
                exists p25 p50 p75, sorted_thresholds (make_q_dict t Valor) p25 p50 p75)
  /\ (forall col : list number,
         (forall x, Num x ∉ col) -> quartiles_of col = Quartiles NaN NaN NaN).
Proof.
  intros (a & -> & Ha)%list_elem_of_fmap. simpl.
  split; [|split; [|split]].
  - intros x Hx. apply (quartiles_of_sorted _ x).
    rewrite <- Hx. by apply list_elem_of_fmap_2.
  - apply (quartiles_of_sorted _ (inject_Z (Z.of_nat (ag_Frequencia a)))).
    by apply (list_elem_of_fmap_2 (fun a => of_nat (ag_Frequencia a))).
  - intros x Hx. apply (quartiles_of_sorted _ x).
    rewrite <- Hx. by apply list_elem_of_fmap_2.
  - intros col Hcol. unfold quartiles_of. rewrite !quantile_interp.
    assert (Hnil : omap finite col = []).
    { destruct (omap finite col) as [|q qs] eqn:Hq; [done|].
      assert (Hin : q ∈ omap finite col) by (rewrite Hq; left).
      apply list_elem_of_omap in Hin as ([|z] & Hz & Hf); simplify_eq/=.
      by destruct (Hcol q). }
    by rewrite Hnil.
Qed.

Lemma thresholds_are_numbers_in_order_witness :
  exists p25 p50 p75,
    sorted_thresholds
      (make_q_dict (compute_aggregates (midnight 2024 2 1) one_undated) Recencia)
      p25 p50 p75.
Proof.
  assert (Hc : classify (make_q_dict (compute_aggregates (midnight 2024 2 1) one_undated))
                 (aggregate_of (midnight 2024 2 1) one_undated "C1")
               ∈ label_table (compute_aggregates (midnight 2024 2 1) one_undated)).
  { unfold label_table. apply list_elem_of_fmap_2.
    rewrite compute_aggregates_eq. left. }
  destruct (thresholds_are_numbers_in_order _ _ Hc) as (H & _).
  apply (H 31%Q). reflexivity.
Defined.

(** ** Recencia counts whole days *)

(** X14. Recencia counts completed periods of 24 hours, not calendar
    dates: for a customer whose last valid purchase is at instant t,
    Recencia is d exactly when t lies at least d and less than d + 1 whole
    days before the computation instant. *)
Theorem recencia_counts_whole_days (dia_atual : Z) (l : list Compra)
    (a : Agregado) (t d : Z) :
  a ∈ compute_aggregates dia_atual l ->
  ag_DiaUltimaCompra a = Some t ->
  (ag_Recencia a = Num (inject_Z d) <->
   t + d * ns_per_day <= dia_atual < t + (d + 1) * ns_per_day).
Proof.
  intros [Ha _]%elem_of_compute_aggregates Ht.
  assert (Hmax : max_date (DiaCompra <$> group_rows (ag_ID_cliente a) l) = Some t)
    by (by rewrite Ha in Ht).
  assert (Hrec : ag_Recencia a = Num (inject_Z ((dia_atual - t) / ns_per_day))).
  { rewrite Ha. simpl. by rewrite Hmax. }
  rewrite Hrec. assert (Hpos : 0 < ns_per_day) by done.
  pose proof (Z.div_mod (dia_atual - t) ns_per_day) as Hdm.
  pose proof (Z.mod_pos_bound (dia_atual - t) ns_per_day Hpos) as Hmod.
  split.
  - intros [= Hd]. lia.
  - intros Hb. do 2 f_equal. symmetry.
    apply (Z.div_unique_pos _ _ _ (dia_atual - t - d * ns_per_day)); lia.
Qed.

(** A purchase at 23:00 on the eve, seen at 01:00: Recencia is 0. *)
Lemma recencia_counts_whole_days_witness :
  let l := [ compra "C1" (Some (midnight 2024 1 31 + 23 * 3600 * 1000000000)) "O1" 10 ] in
  let dia := midnight 2024 2 1 + 3600 * 1000000000 in
  ag_Recencia (aggregate_of dia l "C1") = Num (inject_Z 0).
Proof.
  cbv zeta.
  apply (recencia_counts_whole_days
           (midnight 2024 2 1 + 3600 * 1000000000)
           [ compra "C1" (Some (midnight 2024 1 31 + 23 * 3600 * 1000000000)) "O1" 10 ]
           (aggregate_of (midnight 2024 2 1 + 3600 * 1000000000)
              [ compra "C1" (Some (midnight 2024 1 31 + 23 * 3600 * 1000000000)) "O1" 10 ]
              "C1")
           (midnight 2024 1 31 + 23 * 3600 * 1000000000) 0).
  - rewrite compute_aggregates_eq. left.
  - reflexivity.
  - vm_compute. split; [discriminate | reflexivity].
Defined.
